(** * DataClassFrame: a typed record store over a column table

    Shallow embedding of [dataclassframe/dataclassframe_.py].

    The Python objects that the source mutates and aliases (the store, the
    pandas frame held in [self.df], the [_ColumnsWrapper] held in
    [self._cols]) live in an explicit heap; every method is a function
    from a heap to an outcome and a heap.  Exceptions are outcomes.

    pandas itself is not part of the repository.  Its frame is modelled
    here as a header (column name and dtype) over labelled rows, with the
    operations the source calls written out in [Module pd]. *)

From Stdlib Require Import ZArith Lia.
From stdpp Require Import base option list strings gmap.

Local Open Scope string_scope.
Local Open Scope list_scope.
Local Open Scope Z_scope.

(** ** Python values *)

(** Scalars the store round-trips.  Floating-point numbers are left out;
    the only float is the missing-cell marker [NaN] below. *)
Inductive scalar :=
| SInt (z : Z)
| SBool (b : bool)
| SStr (s : string).

(** A field value: a plain Python scalar, a numpy scalar ([np.generic])
    wrapping one, [None], pandas' missing marker, or an instance of some
    other class, compared and hashed by identity. *)
Inductive pyvalue :=
| Plain (s : scalar)
| NpGeneric (s : scalar)
| VNone
| NaN
| VObj (id : nat).

Global Instance scalar_eq_dec : EqDecision scalar.
Proof. solve_decision. Defined.
Global Instance value_eq_dec : EqDecision pyvalue.
Proof. solve_decision. Defined.

(** [to_basic_type]: [obj.item()] on a numpy scalar, the object itself
    otherwise. *)
Definition to_basic_type (obj : pyvalue) : pyvalue :=
  match obj with
  | NpGeneric s => Plain s
  | _ => obj
  end.

(** Python's [==] on scalars: [bool] is a subclass of [int], strings are
    equal to strings only. *)
Definition scalar_eqb (a b : scalar) : bool :=
  match a, b with
  | SStr x, SStr y => bool_decide (x = y)
  | SStr _, _ | _, SStr _ => false
  | SInt x, SInt y => bool_decide (x = y)
  | SInt x, SBool y => bool_decide (x = Z.b2z y)
  | SBool x, SInt y => bool_decide (Z.b2z x = y)
  | SBool x, SBool y => bool_decide (x = y)
  end.

(** Python's [==] on values; a numpy scalar compares as what it wraps,
    [nan == nan] is false, opaque objects compare by identity. *)
Definition py_eq (a b : pyvalue) : bool :=
  match a, b with
  | (Plain x | NpGeneric x), (Plain y | NpGeneric y) => scalar_eqb x y
  | VNone, VNone => true
  | VObj i, VObj j => bool_decide (i = j)
  | _, _ => false
  end.

(** A key handed to the key indexer, and a row label: one value, or a
    tuple of values for a composite index. *)
Inductive label :=
| LScalar (v : pyvalue)
| LTuple (vs : list pyvalue).

Global Instance label_eq_dec : EqDecision label.
Proof. solve_decision. Defined.

Fixpoint py_eq_list (xs ys : list pyvalue) : bool :=
  match xs, ys with
  | [], [] => true
  | x :: xs', y :: ys' => py_eq x y && py_eq_list xs' ys'
  | _, _ => false
  end.

(** Two labels name the same row for pandas' duplicate test: equal under
    [==], or both missing. *)
Definition same_key (a b : pyvalue) : bool :=
  py_eq a b || (bool_decide (a = NaN) && bool_decide (b = NaN)).

Fixpoint same_key_list (xs ys : list pyvalue) : bool :=
  match xs, ys with
  | [], [] => true
  | x :: xs', y :: ys' => same_key x y && same_key_list xs' ys'
  | _, _ => false
  end.

Definition same_label (a b : label) : bool :=
  match a, b with
  | LScalar x, LScalar y => same_key x y
  | LTuple xs, LTuple ys => same_key_list xs ys
  | _, _ => false
  end.

(** ** Record classes and instances *)

(** The annotation of a dataclass field. *)
Inductive pytype :=
| TInt
| TFloat
| TBool
| TStr
| TObject
| TOther (name : string).

(** The record type descriptor: the class, the classes it derives from,
    and what [dataclasses.fields] sees. *)
Record dataclass := Dataclass {
  cls_name : string;
  cls_bases : list string;
  cls_fields : list (string * pytype)
}.

Definition field_names (rc : dataclass) : list string :=
  (cls_fields rc).*1.

(** A Python instance: the names of its class and of the classes it
    derives from, and its [__dict__] in insertion order. *)
Record pyobject := PyObject {
  ob_type : list string;
  ob_dict : list (string * pyvalue)
}.

Global Instance pytype_eq_dec : EqDecision pytype.
Proof. solve_decision. Defined.
Global Instance pyobject_eq_dec : EqDecision pyobject.
Proof. solve_decision. Defined.

(** [isinstance(dc, record_class)]. *)
Definition isinstance (dc : pyobject) (rc : dataclass) : bool :=
  bool_decide (cls_name rc ∈ ob_type dc).

(** Lookup in a [__dict__]-like association list. *)
Fixpoint dict_get (d : list (string * pyvalue)) (k : string) : option pyvalue :=
  match d with
  | [] => None
  | (k', v) :: d' => if decide (k' = k) then Some v else dict_get d' k
  end.

(** ** Outcomes *)

(** What the source raises, under the names the specification gives the
    failures; the Python exception class is noted at each. *)
Inductive exn :=
| TypeMismatch (expected : string) (found : pyobject) (position : nat)
    (* ValueError: All data must be of type {}. Found type {} at index {} *)
| EmptyInput
    (* ValueError: Data must contain at least one record *)
| DuplicateKey
    (* ValueError from set_index(verify_integrity=True) *)
| AmbiguousKey
    (* KeyError: key combination is not unique *)
| IndexOutOfRange
    (* IndexError from iloc *)
| KeyMismatch (key : label) (in_record : pyvalue)
    (* ValueError: key {} must equal values in the record ({}) *)
| KeyError (what : string)
| TypeError (what : string)
| ValueError (what : string)
| AttributeError (what : string)
| Dangling
    (* a reference to no object of the heap; Python has none *).

Inductive outcome (A : Type) :=
| Ok (a : A)
| Raise (e : exn).
Arguments Ok {A} a.
Arguments Raise {A} e.

(** ** The table engine *)

(** The part of pandas the source calls.  A frame is a header of named,
    typed columns over rows; each row carries its label and one cell per
    column.  Cells are kept as written and come back as numpy scalars
    from a column of native dtype. *)
Module pd.

Inductive dtype := Int64 | Float64 | Bool | Object.

Global Instance dtype_eq_dec : EqDecision dtype.
Proof. solve_decision. Defined.

Record DataFrame := mkDataFrame {
  columns : list (string * dtype);
  body : list (label * list pyvalue)
}.

Definition names (df : DataFrame) : list string := (columns df).*1.
Definition index (df : DataFrame) : list label := (body df).*1.
Definition nrows (df : DataFrame) : nat := length (body df).

(** [pd.DataFrame()]. *)
Definition empty : DataFrame := mkDataFrame [] [].

(** What [dtype=] may be given in the source: a field annotation, or
    the string ['object']. *)
Inductive dtype_arg :=
| OfType (t : pytype)
| OfName (s : string).

(** [pandas_dtype]: the native storage type of an annotation, or
    [TypeError] when there is none. *)
Definition pandas_dtype (a : dtype_arg) : outcome dtype :=
  match a with
  | OfType TInt => Ok Int64
  | OfType TFloat => Ok Float64
  | OfType TBool => Ok Bool
  | OfType TStr => Ok Object
  | OfType TObject => Ok Object
  | OfType (TOther n) => Raise (TypeError n)
  | OfName s =>
      if decide (s = "object") then Ok Object
      else if decide (s = "int64") then Ok Int64
      else if decide (s = "float64") then Ok Float64
      else if decide (s = "bool") then Ok Bool
      else Raise (TypeError s)
  end.

(** [pd.Series(name=..., dtype=...)]: a series without rows is its
    dtype. *)
Definition Series (a : dtype_arg) : outcome dtype := pandas_dtype a.

Definition value_dtype (v : pyvalue) : dtype :=
  match v with
  | Plain (SInt _) | NpGeneric (SInt _) => Int64
  | Plain (SBool _) | NpGeneric (SBool _) => Bool
  | NaN => Float64
  | _ => Object
  end.

Definition common_dtype (a b : dtype) : dtype :=
  match a, b with
  | Int64, Int64 => Int64
  | Bool, Bool => Bool
  | Float64, (Float64 | Int64) | Int64, Float64 => Float64
  | _, _ => Object
  end.

(** The dtype of a column of declared dtype [d] once [cells] are in it. *)
Definition widen (d : dtype) (cells : list pyvalue) : dtype :=
  foldl (λ acc v, common_dtype acc (value_dtype v)) d cells.

(** The dtype pandas infers for a column made of [cells] alone. *)
Definition infer (cells : list pyvalue) : dtype :=
  match cells with
  | [] => Object
  | v :: vs => widen (value_dtype v) vs
  end.

(** What reading a cell of a column of dtype [d] hands back. *)
Definition box (d : dtype) (v : pyvalue) : pyvalue :=
  match d, v with
  | (Int64 | Float64 | Bool), Plain s => NpGeneric s
  | _, _ => v
  end.

Fixpoint col_index (ns : list string) (n : string) : option nat :=
  match ns with
  | [] => None
  | x :: ns' => if decide (x = n) then Some O else S <$> col_index ns' n
  end.

(** Column [j] of the rows. *)
Definition column_cells (j : nat) (rows : list (label * list pyvalue))
  : list pyvalue :=
  (λ r, default NaN (r.2 !! j)) <$> rows.

(** [RangeIndex(n)] starting at [from]. *)
Definition range_labels (from n : nat) : list label :=
  (λ i, LScalar (Plain (SInt (Z.of_nat i)))) <$> seq from n.

(** Reindexing a series given as a dict to the column names: a missing
    name gives [NaN], a name that is no column is dropped. *)
Definition align (ns : list string) (row : list (string * pyvalue))
  : list pyvalue :=
  (λ c, default NaN (dict_get row c)) <$> ns.

(** [df[name] = values] with a list-like of values and its dtype:
    replaces the column when the name is one, adds it last otherwise.
    A frame without columns takes its rows from the values. *)
Definition setitem (df : DataFrame) (name : string) (d : dtype)
    (vals : list pyvalue) : outcome DataFrame :=
  match columns df with
  | [] =>
      Ok (mkDataFrame [(name, d)]
            (zip (range_labels 0 (length vals)) ((λ v, [v]) <$> vals)))
  | _ =>
      if decide (length vals = nrows df) then
        match col_index (names df) name with
        | Some j =>
            Ok (mkDataFrame (<[j := (name, d)]> (columns df))
                  (zip_with (λ r v, (r.1, <[j := v]> r.2)) (body df) vals))
        | None =>
            Ok (mkDataFrame (columns df ++ [(name, d)])
                  (zip_with (λ r v, (r.1, r.2 ++ [v])) (body df) vals))
        end
      else Raise (ValueError "Length of values does not match length of index")
  end.

(** Keys of the dicts that are no column yet, in order of appearance. *)
Fixpoint new_keys (seen : list string) (ks : list string) : list string :=
  match ks with
  | [] => []
  | k :: ks' =>
      if decide (k ∈ seen) then new_keys seen ks'
      else k :: new_keys (k :: seen) ks'
  end.

(** [df.append(dicts)]: a new frame; the dicts become rows labelled
    from 0 after the rows of [df], aligned to the columns of [df]
    followed by the keys that are new. *)
Definition append (df : DataFrame) (dicts : list (list (string * pyvalue)))
  : DataFrame :=
  let extra := new_keys (names df) (mjoin ((λ d, d.*1) <$> dicts)) in
  let all_names := names df ++ extra in
  let old_rows :=
    (λ r, (r.1, r.2 ++ replicate (length extra) NaN)) <$> body df in
  let new_rows :=
    zip (range_labels 0 (length dicts)) (align all_names <$> dicts) in
  let rows := old_rows ++ new_rows in
  let old_cols :=
    imap (λ j c, (c.1, widen c.2 (column_cells j new_rows))) (columns df) in
  let new_cols :=
    imap (λ j n, (n, infer (column_cells (length (columns df) + j) rows)))
         extra in
  mkDataFrame (old_cols ++ new_cols) rows.

(** [keys] as [set_index] takes them: one name or a list of names. *)
Inductive index_arg :=
| IdxName (n : string)
| IdxList (ns : list string).

Definition index_names (ix : index_arg) : list string :=
  match ix with
  | IdxName n => [n]
  | IdxList ns => ns
  end.

(** The cells of a row under the given columns, when all of them are
    columns. *)
Definition key_cells (js : list nat) (cells : list pyvalue) : list pyvalue :=
  (λ j, default NaN (cells !! j)) <$> js.

(** One key column gives an [Index] of its values, several a
    [MultiIndex] of tuples. *)
Definition make_label (vs : list pyvalue) : label :=
  match vs with
  | [v] => LScalar v
  | _ => LTuple vs
  end.

Fixpoint has_duplicates (ls : list label) : bool :=
  match ls with
  | [] => false
  | l :: ls' => existsb (same_label l) ls' || has_duplicates ls'
  end.

(** [df.set_index(keys, drop=False, verify_integrity=True)]: a new
    frame labelled by the key columns, which stay columns. *)
Definition set_index (df : DataFrame) (ix : index_arg) : outcome DataFrame :=
  match mapM (col_index (names df)) (index_names ix) with
  | None => Raise (KeyError "None of the keys are in the columns")
  | Some [] => Raise (ValueError "Must pass non-zero number of levels/codes")
  | Some js =>
      let labels :=
        (λ r, make_label (key_cells js r.2)) <$> body df in
      if has_duplicates labels then Raise DuplicateKey
      else Ok (mkDataFrame (columns df) (zip labels ((body df).*2)))
  end.

(** [df.reset_index(drop=True)]: a new frame labelled 0, 1, ... *)
Definition reset_index (df : DataFrame) : DataFrame :=
  mkDataFrame (columns df)
    (zip (range_labels 0 (nrows df)) ((body df).*2)).

(** The row a position of [iloc] stands for: [-n .. n-1] for [n] rows. *)
Definition position (n : nat) (key : Z) : option nat :=
  if decide (0 <= key < Z.of_nat n) then Some (Z.to_nat key)
  else if decide (- Z.of_nat n <= key < 0) then Some (Z.to_nat (Z.of_nat n + key))
  else None.

(** The row as [to_dict] gives it: name to cell, cells as read. *)
Definition row_to_dict (df : DataFrame) (cells : list pyvalue)
  : list (string * pyvalue) :=
  zip_with (λ c v, (c.1, box c.2 v)) (columns df) cells.

(** What an indexer of a frame selects: one row, a series, given here
    as its [to_dict()], or several rows, a frame. *)
Inductive selection :=
| ASeries (row : list (string * pyvalue))
| AFrame (rows : list (list (string * pyvalue))).

(** [df.iloc[key]] for an integer [key]: always a series. *)
Definition iloc_get (df : DataFrame) (key : Z) : outcome selection :=
  match position (nrows df) key with
  | None => Raise IndexOutOfRange
  | Some i =>
      match body df !! i with
      | Some r => Ok (ASeries (row_to_dict df r.2))
      | None => Raise IndexOutOfRange
      end
  end.

(** The header once a row of [cells] is written into the frame. *)
Definition widen_columns (cols : list (string * dtype)) (cells : list pyvalue)
  : list (string * dtype) :=
  zip_with (λ c v, (c.1, common_dtype c.2 (value_dtype v))) cols cells.

(** [df.iloc[key] = series] for an integer [key] and a series given as
    a dict: the row takes the series reindexed to the columns. *)
Definition iloc_set (df : DataFrame) (key : Z) (row : list (string * pyvalue))
  : outcome DataFrame :=
  match position (nrows df) key with
  | None => Raise IndexOutOfRange
  | Some i =>
      let cells := align (names df) row in
      Ok (mkDataFrame (widen_columns (columns df) cells)
            (alter (λ r, (r.1, cells)) i (body df)))
  end.

(** [df.loc[key] = series]: every row labelled [key] takes the series
    reindexed to the columns; when no row is, one is added last under
    that label. *)
Definition loc_set (df : DataFrame) (key : label) (row : list (string * pyvalue))
  : DataFrame :=
  let cells := align (names df) row in
  if existsb (same_label key) (index df) then
    mkDataFrame (widen_columns (columns df) cells)
      ((λ r, if same_label key r.1 then (r.1, cells) else r) <$> body df)
  else
    mkDataFrame (widen_columns (columns df) cells)
      (body df ++ [(key, cells)]).

(** [df.head(n)]: a new frame of the first [n] rows; all but the last
    [-n] for a negative [n]. *)
Definition head (df : DataFrame) (n : Z) : DataFrame :=
  let k := if decide (0 <= n) then Z.to_nat n
           else Z.to_nat (Z.of_nat (nrows df) + n) in
  mkDataFrame (columns df) (take k (body df)).

(** [df[name]]: the column as a series, here its cells as read. *)
Definition getitem (df : DataFrame) (name : string) : outcome (list pyvalue) :=
  match col_index (names df) name with
  | None => Raise (KeyError name)
  | Some j =>
      let d := default Object ((columns df).*2 !! j) in
      Ok (box d <$> column_cells j (body df))
  end.

(** Whether the key of [loc] selects a row labelled [l]: a label equal
    to it, or, on a composite index, a label it is a prefix of. *)
Definition selects (key l : label) : bool :=
  match key, l with
  | LScalar k, LScalar v => same_key k v
  | LScalar k, LTuple (v :: _) => same_key k v
  | LTuple ks, LTuple vs =>
      bool_decide (length ks ≤ length vs)%nat
      && same_key_list ks (take (length ks) vs)
  | _, _ => false
  end.

Definition is_scalar_label (l : label) : bool :=
  match l with
  | LScalar _ => true
  | LTuple _ => false
  end.

(** [df.loc[key, :]].  The rows [key] selects: none is a [KeyError];
    one is given as a series; several are a frame.  On an index of
    single values a tuple is a list of labels, each of which must label
    a row, and the selection is a frame.  (Where pandas gives a frame of
    one row the source takes that row, so a series stands for it.) *)
Definition loc_get (df : DataFrame) (key : label) : outcome selection :=
  match key with
  | LTuple ks =>
      if forallb is_scalar_label (index df) then
        match mapM (λ k, match filter (λ r, selects (LScalar k) r.1 = true)
                                 (body df) with
                         | [] => None
                         | rs => Some rs
                         end) ks with
        | None => Raise (KeyError "not in index")
        | Some rss => Ok (AFrame ((λ r, row_to_dict df r.2) <$> mjoin rss))
        end
      else
        match filter (λ r, selects key r.1 = true) (body df) with
        | [] => Raise (KeyError "not in index")
        | [r] => Ok (ASeries (row_to_dict df r.2))
        | rs => Ok (AFrame ((λ r, row_to_dict df r.2) <$> rs))
        end
  | LScalar _ =>
      match filter (λ r, selects key r.1 = true) (body df) with
      | [] => Raise (KeyError "not in index")
      | [r] => Ok (ASeries (row_to_dict df r.2))
      | rs => Ok (AFrame ((λ r, row_to_dict df r.2) <$> rs))
      end
  end.

End pd.

(** ** The heap *)

Definition loc := nat.

(** A [DataClassFrame] instance: its four attributes. *)
Record DataClassFrame := mkDataClassFrame {
  record_class : dataclass;
  df : loc;
  index : option pd.index_arg;
  _cols : loc
}.

(** A [_ColumnsWrapper] instance: ['__dcf'], ['__cols'], and whatever
    else was set on it under a name that is no column. *)
Record _ColumnsWrapper := mkColumnsWrapper {
  __dcf : loc;
  __cols : gset string;
  attrs : gmap string (list pyvalue)
}.

Record heap := mkHeap {
  frames : gmap loc pd.DataFrame;
  stores : gmap loc DataClassFrame;
  wrappers : gmap loc _ColumnsWrapper
}.

Definition M (A : Type) : Type := heap → outcome A * heap.

Definition ret {A} (a : A) : M A := λ h, (Ok a, h).
Definition raise {A} (e : exn) : M A := λ h, (Raise e, h).
Definition bind {A B} (m : M A) (k : A → M B) : M B :=
  λ h, match m h with
       | (Ok a, h') => k a h'
       | (Raise e, h') => (Raise e, h')
       end.
Definition lift {A} (o : outcome A) : M A := λ h, (o, h).

Notation "'let*' x ':=' m 'in' k" := (bind m (λ x, k))
  (at level 10, x pattern, m at level 100, k at level 200, only parsing).

Definition obind {A B} (o : outcome A) (k : A → outcome B) : outcome B :=
  match o with
  | Ok a => k a
  | Raise e => Raise e
  end.

Notation "'let+' x ':=' o 'in' k" := (obind o (λ x, k))
  (at level 10, x pattern, o at level 100, k at level 200, only parsing).

Definition get_store (s : loc) : M DataClassFrame :=
  λ h, (from_option Ok (Raise Dangling) (stores h !! s), h).
Definition get_frame (f : loc) : M pd.DataFrame :=
  λ h, (from_option Ok (Raise Dangling) (frames h !! f), h).
Definition get_wrapper (w : loc) : M _ColumnsWrapper :=
  λ h, (from_option Ok (Raise Dangling) (wrappers h !! w), h).

Definition put_frame (f : loc) (d : pd.DataFrame) : M unit :=
  λ h, (Ok (), mkHeap (<[f := d]> (frames h)) (stores h) (wrappers h)).
Definition put_store (s : loc) (o : DataClassFrame) : M unit :=
  λ h, (Ok (), mkHeap (frames h) (<[s := o]> (stores h)) (wrappers h)).
Definition put_wrapper (w : loc) (o : _ColumnsWrapper) : M unit :=
  λ h, (Ok (), mkHeap (frames h) (stores h) (<[w := o]> (wrappers h))).

Definition new_frame (d : pd.DataFrame) : M loc :=
  λ h, let f := fresh (dom (frames h)) in
       (Ok f, mkHeap (<[f := d]> (frames h)) (stores h) (wrappers h)).
Definition new_store_loc : M loc :=
  λ h, (Ok (fresh (dom (stores h))), h).
Definition new_wrapper_loc : M loc :=
  λ h, (Ok (fresh (dom (wrappers h))), h).

Definition empty_heap : heap := mkHeap ∅ ∅ ∅.

(** ** The source's classes *)

(** [record_class] called with the row as keywords: the generated
    [__init__] of a dataclass whose fields have no defaults.  A keyword that is no field, or a field
    without a keyword, is a [TypeError]; the instance's [__dict__] is
    filled in field order. *)
Definition construct (rc : dataclass) (row : list (string * pyvalue))
  : outcome pyobject :=
  if bool_decide (Forall (λ k, k ∈ field_names rc) row.*1) then
    match mapM (λ n, (λ v, (n, v)) <$> dict_get row n) (field_names rc) with
    | Some d => Ok (PyObject (cls_name rc :: cls_bases rc) d)
    | None => Raise (TypeError "missing required argument")
    end
  else Raise (TypeError "unexpected keyword argument").

Module IAtIndexer.

(** The [isinstance(row, pd.DataFrame)] step of both [__getitem__]s:
    a frame of more than one row is ambiguous, a frame of one row
    stands for that row ([row.iloc[0]]). *)
Definition one_row (sel : pd.selection) : outcome (list (string * pyvalue)) :=
  match sel with
  | pd.AFrame rows =>
      if decide (1 < length rows)%nat then Raise AmbiguousKey
      else match rows with
           | row :: _ => Ok row
           | [] => Raise IndexOutOfRange
           end
  | pd.ASeries row => Ok row
  end.

(** [_IAtIndexer.__getitem__]. *)
Definition __getitem__ (dcf : loc) (key : Z) : M pyobject :=
  let* self := get_store dcf in
  let* frame := get_frame (df self) in
  let* row := lift (pd.iloc_get frame key) in
  let* row := lift (one_row row) in
  let row := (λ kv, (kv.1, to_basic_type kv.2)) <$> row in
  lift (construct (record_class self) row).

(** [_IAtIndexer.__setitem__]. *)
Definition __setitem__ (dcf : loc) (key : Z) (value : pyobject) : M unit :=
  let row := ob_dict value in
  let* self := get_store dcf in
  let* frame := get_frame (df self) in
  let* frame' := lift (pd.iloc_set frame key row) in
  put_frame (df self) frame'.

End IAtIndexer.

Module AtIndexer.

(** [value.__dict__[self.dcf.index]]: [None] is a key no instance has,
    a list is unhashable. *)
Definition index_value_in_record (ix : option pd.index_arg)
    (value : pyobject) : outcome pyvalue :=
  match ix with
  | None => Raise (KeyError "None")
  | Some (pd.IdxName n) =>
      match dict_get (ob_dict value) n with
      | Some v => Ok v
      | None => Raise (KeyError n)
      end
  | Some (pd.IdxList _) => Raise (TypeError "unhashable type: 'list'")
  end.

(** [key != index_value_in_record]: a tuple is never equal to a
    scalar. *)
Definition key_differs (key : label) (v : pyvalue) : bool :=
  match key with
  | LScalar k => negb (py_eq k v)
  | LTuple _ => true
  end.

(** [_AtIndexer.__setitem__]. *)
Definition __setitem__ (dcf : loc) (key : label) (value : pyobject) : M unit :=
  let* self := get_store dcf in
  let* in_record := lift (index_value_in_record (index self) value) in
  if key_differs key in_record then raise (KeyMismatch key in_record)
  else
    let row := ob_dict value in
    let* frame := get_frame (df self) in
    put_frame (df self) (pd.loc_set frame key row).

(** [_AtIndexer.__getitem__]; [pd.IndexSlice[key]] is [key]. *)
Definition __getitem__ (dcf : loc) (key : label) : M pyobject :=
  let* self := get_store dcf in
  let* frame := get_frame (df self) in
  let* row := lift (pd.loc_get frame key) in
  let* row := lift (IAtIndexer.one_row row) in
  let row := (λ kv, (kv.1, to_basic_type kv.2)) <$> row in
  lift (construct (record_class self) row).

End AtIndexer.

Module ColumnsWrapper.

(** [_ColumnsWrapper.__init__]: the column names are taken once. *)
Definition __init__ (dcf : loc) (frame : pd.DataFrame) : _ColumnsWrapper :=
  mkColumnsWrapper dcf (list_to_set (pd.names frame)) ∅.

(** [_ColumnsWrapper.__getattribute__]. *)
Definition __getattribute__ (w : loc) (name : string) : M (list pyvalue) :=
  let* self := get_wrapper w in
  if decide (name ∈ __cols self) then
    let* dcf := get_store (__dcf self) in
    let* frame := get_frame (df dcf) in
    lift (pd.getitem frame name)
  else
    match attrs self !! name with
    | Some v => ret v
    | None => raise (AttributeError name)
    end.


End ColumnsWrapper.

Module DataClassFrame.

(** [_dataclass_to_empty_dataframe]: one zero-row column per field,
    in field order; the [try] covers the series and its assignment,
    and only [TypeError] is caught. *)
Definition add_field (frame : pd.DataFrame) (field : string * pytype)
  : outcome pd.DataFrame :=
  match (let+ d := pd.Series (pd.OfType field.2) in
         pd.setitem frame field.1 d []) with
  | Raise (TypeError _) =>
      let+ d := pd.Series (pd.OfName "object") in
      pd.setitem frame field.1 d []
  | r => r
  end.

Fixpoint add_fields (frame : pd.DataFrame) (fs : list (string * pytype))
  : outcome pd.DataFrame :=
  match fs with
  | [] => Ok frame
  | field :: fs' =>
      let+ frame' := add_field frame field in
      add_fields frame' fs'
  end.

Definition _dataclass_to_empty_dataframe (record_class : dataclass)
  : outcome pd.DataFrame :=
  add_fields pd.empty (cls_fields record_class).

(** [_from_dataframe] on a new instance: the frame is re-labelled into
    a frame of its own, then the instance and its column wrapper are
    made, each referring to the other. *)
Definition _from_dataframe (record_class : dataclass)
    (data : option pd.DataFrame) (index : option pd.index_arg) : M loc :=
  let* frame :=
    lift (match data with
          | Some d => Ok d
          | None => _dataclass_to_empty_dataframe record_class
          end) in
  let* frame :=
    lift (match index with
          | Some ix => pd.set_index frame ix
          | None => Ok (pd.reset_index frame)
          end) in
  let* f := new_frame frame in
  let* self := new_store_loc in
  let* w := new_wrapper_loc in
  let* _ := put_store self (mkDataClassFrame record_class f index w) in
  let* _ := put_wrapper w (ColumnsWrapper.__init__ self frame) in
  ret self.

(** [validate_and_to_dict] of [__init__]. *)
Definition validate_and_to_dict (record_class : dataclass) (i : nat)
    (dc : pyobject) : outcome (list (string * pyvalue)) :=
  if isinstance dc record_class then Ok (ob_dict dc)
  else Raise (TypeMismatch (cls_name record_class) dc i).

(** The comprehension over [enumerate(data)], from position [i]. *)
Fixpoint validate_from (record_class : dataclass) (i : nat)
    (data : list pyobject) : outcome (list (list (string * pyvalue))) :=
  match data with
  | [] => Ok []
  | dc :: data' =>
      let+ d := validate_and_to_dict record_class i dc in
      let+ ds := validate_from record_class (S i) data' in
      Ok (d :: ds)
  end.

(** [DataClassFrame.__init__]. *)
Definition __init__ (record_class : dataclass) (data : list pyobject)
    (index : option pd.index_arg) : M loc :=
  let* df_data := lift (validate_from record_class 0 data) in
  if decide (length df_data < 1)%nat then raise EmptyInput
  else
    let* frame := lift (_dataclass_to_empty_dataframe record_class) in
    let frame := pd.append frame df_data in
    _from_dataframe record_class (Some frame) index.

(** [DataClassFrame.from_dataframe]. *)
Definition from_dataframe (record_class : dataclass)
    (data : option pd.DataFrame) (index : option pd.index_arg) : M loc :=
  _from_dataframe record_class data index.

(** [copy(deep=False)]: a new instance with the same attributes. *)
Definition copy_shallow (self : loc) : M loc :=
  let* o := get_store self in
  let* new_dcf := new_store_loc in
  let* _ := put_store new_dcf o in
  ret new_dcf.

(** [DataClassFrame.head]. *)
Definition head (self : loc) (n : Z) : M loc :=
  let* new_dcf := copy_shallow self in
  let* o := get_store self in
  let* frame := get_frame (df o) in
  let* f := new_frame (pd.head frame n) in
  let* c := get_store new_dcf in
  let* _ := put_store new_dcf
              (mkDataClassFrame (record_class c) f (index c) (_cols c)) in
  ret new_dcf.

(** The [cols] property. *)
Definition cols (self : loc) : M loc :=
  let* o := get_store self in ret (_cols o).

(** [DataClassFrame.to_dataframe]: a frame of the caller's own. *)
Definition to_dataframe (self : loc) : M pd.DataFrame :=
  let* o := get_store self in get_frame (df o).

End DataClassFrame.

(** * Vocabulary of the properties *)

(** ** What the properties speak of *)


(** A record as the data model has it: an instance of the record type
    whose [__dict__] holds the fields, in declaration order. *)
Definition conforms (rc : dataclass) (r : pyobject) : Prop :=
  isinstance r rc = true ∧ (ob_dict r).*1 = field_names rc.



(** The labelling step of [_from_dataframe]. *)
Definition relabel (fr : pd.DataFrame) (index : option pd.index_arg)
  : outcome pd.DataFrame :=
  match index with
  | Some ix => pd.set_index fr ix
  | None => Ok (pd.reset_index fr)
  end.

(** The heap once [_from_dataframe] has made an instance over [fr']. *)
Definition installed (rc : dataclass) (fr' : pd.DataFrame)
    (index : option pd.index_arg) (h : heap) : loc * heap :=
  let f := fresh (dom (frames h)) in
  let s := fresh (dom (stores h)) in
  let w := fresh (dom (wrappers h)) in
  (s, mkHeap (<[f := fr']> (frames h))
             (<[s := mkDataClassFrame rc f index w]> (stores h))
             (<[w := ColumnsWrapper.__init__ s fr']> (wrappers h))).


(** The record a positional read makes of a frame. *)
Definition read_row (rc : dataclass) (fr : pd.DataFrame) (key : Z)
  : outcome pyobject :=
  let+ row := pd.iloc_get fr key in
  let+ row := IAtIndexer.one_row row in
  construct rc ((λ kv, (kv.1, to_basic_type kv.2)) <$> row).







(** What [same_key] compares: the number a value stands for (a [bool]
    is its integer), its string, or what it is. *)
Inductive kclass :=
| KNum (z : Z)
| KStr (s : string)
| KNone
| KNaN
| KObj (id : nat).

Global Instance kclass_eq_dec : EqDecision kclass.
Proof. solve_decision. Defined.

Definition key_class (v : pyvalue) : kclass :=
  match v with
  | Plain (SInt z) | NpGeneric (SInt z) => KNum z
  | Plain (SBool b) | NpGeneric (SBool b) => KNum (Z.b2z b)
  | Plain (SStr s) | NpGeneric (SStr s) => KStr s
  | VNone => KNone
  | NaN => KNaN
  | VObj i => KObj i
  end.



(** The record a keyed read makes of a frame. *)
Definition read_key (rc : dataclass) (fr : pd.DataFrame) (key : label)
  : outcome pyobject :=
  let+ row := pd.loc_get fr key in
  let+ row := IAtIndexer.one_row row in
  construct rc ((λ kv, (kv.1, to_basic_type kv.2)) <$> row).

(** ** Sequences of operations *)






(** ** A record type and some stores, for the examples *)

(** The record type [Point(id: str, x: int, owner: Owner)]. *)
Definition rc_point : dataclass :=
  Dataclass "Point" ["object"]
    [("id", TStr); ("x", TInt); ("owner", TOther "Owner")].

(** An instance of [Point]. *)
Definition point (id : string) (x : Z) (owner : nat) : pyobject :=
  PyObject ["Point"; "object"]
    [("id", Plain (SStr id)); ("x", Plain (SInt x)); ("owner", VObj owner)].

(** An instance of another class. *)
Definition stranger : pyobject :=
  PyObject ["Other"; "object"] [("id", Plain (SStr "q"))].


Definition frame_three_points : pd.DataFrame :=
  pd.mkDataFrame [("id", pd.Object); ("x", pd.Int64); ("owner", pd.Object)]
    [(LScalar (Plain (SInt 0)), [Plain (SStr "a"); Plain (SInt 1); VObj 0]);
     (LScalar (Plain (SInt 1)), [Plain (SStr "b"); Plain (SInt 2); VObj 1]);
     (LScalar (Plain (SInt 2)), [Plain (SStr "c"); Plain (SInt 3); VObj 2])].

(** The heap after building the store of two points without index. *)
Definition heap_two_points : heap :=
  (DataClassFrame.__init__ rc_point [point "a" 1 0; point "b" 2 1] None
     empty_heap).2.

(** The heap after building the store of three points without index,
    and the frame it holds. *)
Definition heap_three_points : heap :=
  (DataClassFrame.__init__ rc_point
     [point "a" 1 0; point "b" 2 1; point "c" 3 2] None empty_heap).2.

(** The store of two points indexed by the composite [["id"; "x"]], and
    the one indexed by the one-field list [["id"]]. *)
Definition heap_composite : heap :=
  (DataClassFrame.__init__ rc_point [point "a" 1 0; point "b" 2 1]
     (Some (pd.IdxList ["id"; "x"])) empty_heap).2.

Definition heap_id_list : heap :=
  (DataClassFrame.__init__ rc_point [point "a" 1 0; point "b" 2 1]
     (Some (pd.IdxList ["id"])) empty_heap).2.

(** The view of the first two of the three points, and the heap after
    taking the first row of that view. *)
Definition heap_view : heap :=
  (DataClassFrame.head 0%nat 2 heap_three_points).2.

Definition heap_view_of_view : heap :=
  (DataClassFrame.head 1%nat 1 heap_view).2.



Definition frame_by_id : pd.DataFrame :=
  pd.mkDataFrame [("id", pd.Object); ("x", pd.Int64); ("owner", pd.Object)]
    [(LScalar (Plain (SStr "a")), [Plain (SStr "a"); Plain (SInt 1); VObj 0]);
     (LScalar (Plain (SStr "b")), [Plain (SStr "b"); Plain (SInt 2); VObj 1])].

(** ** Tactics *)

(** Unfolds the heap monad. *)
Ltac run := unfold bind, lift, ret, raise, get_store, get_frame, get_wrapper,
  put_frame, put_store, put_wrapper, new_frame, new_store_loc, new_wrapper_loc;
  simpl.


(** * Properties *)

(** ** Schema derivation *)



Lemma col_index_is_Some (ns : list string) (n : string) :
  n ∈ ns → is_Some (pd.col_index ns n).
Proof.
  induction ns as [|x ns IH]; simpl; intros Hn.
  - by apply elem_of_nil in Hn.
  - destruct (decide (x = n)); [by eexists|].
    apply elem_of_cons in Hn as [->|Hn]; [done|].
    destruct (IH Hn) as [j ->]. by eexists.
Qed.



(** The deriver never raises: whatever the fields, each step ends in a
    frame without rows. *)
Lemma add_field_total (frame : pd.DataFrame) (field : string * pytype) :
  pd.body frame = [] →
  ∃ frame', DataClassFrame.add_field frame field = Ok frame'
            ∧ pd.body frame' = [].
Proof.
  intros Hb. unfold DataClassFrame.add_field, pd.Series.
  assert (Hset : ∀ d, ∃ frame', pd.setitem frame field.1 d [] = Ok frame'
                                ∧ pd.body frame' = []).
  { intros d. unfold pd.setitem, pd.nrows. rewrite Hb.
    destruct (pd.columns frame) as [|c cs]; [by eexists|].
    simpl length. rewrite decide_True by done.
    destruct (pd.col_index _ _); by eexists. }
  destruct field as [n t]; simpl in *.
  destruct t; simpl;
    try (destruct (Hset pd.Int64) as (f' & -> & ?); by eexists);
    try (destruct (Hset pd.Float64) as (f' & -> & ?); by eexists);
    try (destruct (Hset pd.Bool) as (f' & -> & ?); by eexists);
    destruct (Hset pd.Object) as (f' & -> & ?); by eexists.
Qed.

Lemma add_fields_total (fs : list (string * pytype)) (frame : pd.DataFrame) :
  pd.body frame = [] →
  ∃ frame', DataClassFrame.add_fields frame fs = Ok frame'
            ∧ pd.body frame' = [].
Proof.
  revert frame. induction fs as [|f fs IH]; intros frame Hb; simpl.
  - by eexists.
  - destruct (add_field_total frame f Hb) as (f1 & -> & Hb1). simpl.
    by apply IH.
Qed.



(** ** Construction from records: the failures *)

(** C8.  Construction from no records fails with [EmptyInput], whatever
    the record type, the index argument and the heap, and changes
    nothing. *)
Theorem init_empty_input (rc : dataclass) (index : option pd.index_arg)
    (h : heap) :
  DataClassFrame.__init__ rc [] index h = (Raise EmptyInput, h).
Proof. reflexivity. Qed.

(** Validation stops at the first record that is no instance and
    reports it with its position. *)
Lemma validate_from_mismatch (rc : dataclass) (data : list pyobject) (i0 : nat) :
  Exists (λ r, isinstance r rc = false) data →
  ∃ i r, data !! i = Some r
         ∧ isinstance r rc = false
         ∧ (∀ j r', (j < i)%nat → data !! j = Some r' → isinstance r' rc = true)
         ∧ DataClassFrame.validate_from rc i0 data
           = Raise (TypeMismatch (cls_name rc) r (i0 + i)).
Proof.
  revert i0. induction data as [|dc data IH]; intros i0 Hex.
  - by apply Exists_nil in Hex.
  - simpl. unfold DataClassFrame.validate_and_to_dict.
    destruct (isinstance dc rc) eqn:Hdc.
    + apply Exists_cons in Hex as [Hbad|Hex]; [congruence|].
      destruct (IH (S i0) Hex) as (i & r & Hi & Hr & Hbefore & Hv).
      exists (S i), r. split_and!; try done.
      * intros [|j] r' Hj Hr'; simpl in Hr'; [congruence|].
        apply (Hbefore j); [lia|done].
      * rewrite Hv. simpl. do 2 f_equal. lia.
    + exists 0%nat, dc. split_and!; try done.
      * intros j r' Hj. lia.
      * simpl. do 2 f_equal. lia.
Qed.

(** C7.  If some record of the input is no instance of the record type,
    construction fails with [TypeMismatch] carrying the name of the
    expected type, the offending value and its position in the input;
    the record reported is the first offending one. *)
Theorem init_type_mismatch (rc : dataclass) (data : list pyobject)
    (index : option pd.index_arg) (h : heap) :
  Exists (λ r, isinstance r rc = false) data →
  ∃ i r, data !! i = Some r
         ∧ isinstance r rc = false
         ∧ (∀ j r', (j < i)%nat → data !! j = Some r' → isinstance r' rc = true)
         ∧ DataClassFrame.__init__ rc data index h
           = (Raise (TypeMismatch (cls_name rc) r i), h).
Proof.
  intros Hex.
  destruct (validate_from_mismatch rc data 0 Hex) as (i & r & Hi & Hr & Hb & Hv).
  exists i, r. split_and!; try done.
  unfold DataClassFrame.__init__. run. by rewrite Hv.
Qed.

Lemma init_type_mismatch_witness :
  ∃ i r, [point "a" 1 0; stranger; point "b" 2 1] !! i = Some r
         ∧ DataClassFrame.__init__ rc_point
             [point "a" 1 0; stranger; point "b" 2 1] None empty_heap
           = (Raise (TypeMismatch "Point" r i), empty_heap).
Proof.
  destruct (init_type_mismatch rc_point
              [point "a" 1 0; stranger; point "b" 2 1] None empty_heap)
    as (i & r & Hi & _ & _ & Hrun).
  - apply Exists_cons_tl, Exists_cons_hd. reflexivity.
  - exists i, r. split; [exact Hi|exact Hrun].
Defined.

(** ** Frames that fit a record type *)

Lemma to_basic_type_box (d : pd.dtype) (v : pyvalue) :
  to_basic_type (pd.box d v) = to_basic_type v.
Proof. by destruct d, v. Qed.







Lemma length_range_labels (from n : nat) :
  length (pd.range_labels from n) = n.
Proof. unfold pd.range_labels. by rewrite length_fmap, length_seq. Qed.



Lemma from_dataframe_run (rc : dataclass) (fr : pd.DataFrame)
    (index : option pd.index_arg) (h : heap) :
  DataClassFrame._from_dataframe rc (Some fr) index h
  = match relabel fr index with
    | Ok fr' => (Ok (installed rc fr' index h).1, (installed rc fr' index h).2)
    | Raise e => (Raise e, h)
    end.
Proof.
  unfold DataClassFrame._from_dataframe, relabel. run.
  destruct index as [ix|]; [|done]. by destruct (pd.set_index fr ix).
Qed.

Lemma installed_lookup (rc : dataclass) (fr' : pd.DataFrame)
    (index : option pd.index_arg) (h : heap) :
  let '(s, h') := installed rc fr' index h in
  ∃ o, stores h' !! s = Some o
       ∧ record_class o = rc
       ∧ frames h' !! df o = Some fr'.
Proof.
  simpl. eexists. split; [apply lookup_insert_eq|].
  split; [done|]. simpl. apply lookup_insert_eq.
Qed.

(** ** Positional reads *)

Lemma position_nat (n i : nat) :
  (i < n)%nat → pd.position n (Z.of_nat i) = Some i.
Proof.
  intros Hi. unfold pd.position.
  rewrite decide_True by lia. by rewrite Nat2Z.id.
Qed.







(** ** Index promotion *)








(** ** Writes *)


(** A key write on a store indexed by a list of field names raises
    [TypeError] before the key is looked at, whatever the key and the
    record, and leaves the heap as it was. *)
Lemma at_setitem_list_index (h : heap) (s : loc) (o : DataClassFrame)
    (ns : list string) (key : label) (value : pyobject) :
  stores h !! s = Some o → index o = Some (pd.IdxList ns) →
  AtIndexer.__setitem__ s key value h
  = (Raise (TypeError "unhashable type: 'list'"), h).
Proof.
  intros Hs Hix. unfold AtIndexer.__setitem__. run.
  rewrite Hs. simpl. by rewrite Hix.
Qed.

(** C2.  On the store built with the composite index [["id"; "x"]],
    writing the record [point "a" 1 7] under the key [("a", 1)], which
    is the record's own pair of index-field values, does not succeed: it
    raises [TypeError].  The same happens on the store built with the
    one-field list index [["id"]] under the key ["a"]. *)
Theorem at_setitem_list_index_matching_key_fails :
  (DataClassFrame.__init__ rc_point [point "a" 1 0; point "b" 2 1]
     (Some (pd.IdxList ["id"; "x"])) empty_heap).1 = Ok 0%nat
  ∧ AtIndexer.__setitem__ 0%nat
      (LTuple [Plain (SStr "a"); Plain (SInt 1)]) (point "a" 1 7)
      heap_composite
    = (Raise (TypeError "unhashable type: 'list'"), heap_composite)
  ∧ (DataClassFrame.__init__ rc_point [point "a" 1 0; point "b" 2 1]
       (Some (pd.IdxList ["id"])) empty_heap).1 = Ok 0%nat
  ∧ AtIndexer.__setitem__ 0%nat (LScalar (Plain (SStr "a")))
      (point "a" 1 7) heap_id_list
    = (Raise (TypeError "unhashable type: 'list'"), heap_id_list).
Proof.
  split; [vm_compute; reflexivity|].
  split; [eapply at_setitem_list_index with (ns := ["id"; "x"]);
          [vm_compute; reflexivity|reflexivity]|].
  split; [vm_compute; reflexivity|].
  eapply at_setitem_list_index with (ns := ["id"]);
    [vm_compute; reflexivity|reflexivity].
Qed.

(** ** Who checks the record type *)











(** ** Views *)

Lemma fresh_ne {A} (m : gmap loc A) (k : loc) (x : A) :
  m !! k = Some x → fresh (dom m) ≠ k.
Proof.
  intros Hk Heq. apply (is_fresh (dom m)). rewrite Heq.
  apply elem_of_dom. by eexists.
Qed.

Lemma iat_getitem_run (h : heap) (s : loc) (o : DataClassFrame)
    (fr : pd.DataFrame) (key : Z) :
  stores h !! s = Some o → frames h !! df o = Some fr →
  IAtIndexer.__getitem__ s key h = (read_row (record_class o) fr key, h).
Proof.
  intros Hs Hf. unfold IAtIndexer.__getitem__, read_row. run.
  rewrite Hs. simpl. rewrite Hf. simpl.
  destruct (pd.iloc_get fr key) as [sel|]; simpl; [|done].
  destruct (IAtIndexer.one_row sel); simpl; [|done].
  by destruct (construct _ _).
Qed.

Lemma read_row_head (rc : dataclass) (fr : pd.DataFrame) (n i : nat) :
  (i < n)%nat → (n ≤ pd.nrows fr)%nat →
  read_row rc (pd.head fr (Z.of_nat n)) (Z.of_nat i)
  = read_row rc fr (Z.of_nat i).
Proof.
  intros Hi Hn. unfold read_row, pd.iloc_get, pd.head, pd.nrows in *.
  rewrite decide_True by lia. rewrite Nat2Z.id. simpl.
  rewrite length_take_le by done.
  rewrite !position_nat by lia.
  rewrite lookup_take_lt by done. done.
Qed.

(** What [head] does to the heap. *)
Lemma head_run (h : heap) (s : loc) (o : DataClassFrame) (fr : pd.DataFrame)
    (n : Z) :
  stores h !! s = Some o → frames h !! df o = Some fr →
  DataClassFrame.head s n h
  = (Ok (fresh (dom (stores h))),
     mkHeap (<[fresh (dom (frames h)) := pd.head fr n]> (frames h))
            (<[fresh (dom (stores h)) :=
                 mkDataClassFrame (record_class o) (fresh (dom (frames h)))
                   (index o) (_cols o)]> (stores h))
            (wrappers h)).
Proof.
  intros Hs Hf.
  unfold DataClassFrame.head, DataClassFrame.copy_shallow. run.
  rewrite Hs. simpl.
  rewrite lookup_insert_ne by by eapply fresh_ne.
  rewrite Hs. simpl. rewrite Hf. simpl.
  rewrite lookup_insert_eq. simpl. by rewrite insert_insert_eq.
Qed.

(** An indexer write touches no frame but the store's own. *)
Lemma iat_setitem_frames (h h' : heap) (s : loc) (o : DataClassFrame)
    (key : Z) (value : pyobject) (r : outcome unit) (f : loc) :
  stores h !! s = Some o → f ≠ df o →
  IAtIndexer.__setitem__ s key value h = (r, h') →
  frames h' !! f = frames h !! f.
Proof.
  intros Hs Hne. unfold IAtIndexer.__setitem__. run. rewrite Hs. simpl.
  destruct (frames h !! df o) as [fr|]; simpl; [|by intros [= _ <-]].
  destruct (pd.iloc_set fr key (ob_dict value)); simpl; intros [= _ <-];
    [|done].
  simpl. by rewrite lookup_insert_ne.
Qed.

Lemma at_setitem_frames (h h' : heap) (s : loc) (o : DataClassFrame)
    (key : label) (value : pyobject) (r : outcome unit) (f : loc) :
  stores h !! s = Some o → f ≠ df o →
  AtIndexer.__setitem__ s key value h = (r, h') →
  frames h' !! f = frames h !! f.
Proof.
  intros Hs Hne. unfold AtIndexer.__setitem__. run. rewrite Hs. simpl.
  destruct (AtIndexer.index_value_in_record (index o) value) as [v|];
    simpl; [|by intros [= _ <-]].
  destruct (AtIndexer.key_differs key v); run; [by intros [= _ <-]|].
  destruct (frames h !! df o) as [fr|]; simpl; intros [= _ <-]; [|done].
  simpl. by rewrite lookup_insert_ne.
Qed.

(** C6.  [head(n)] on a store of at least [n] rows returns a new store
    of exactly [n] rows, of the same record type, that leaves the
    parent as it was; a positional read at [i < n] gives through the
    view what it gives through the parent; and after a positional or a
    key write through the view, whatever its outcome, the parent still
    has the rows it had. *)
Theorem head_first_rows (h : heap) (s : loc) (o : DataClassFrame)
    (fr : pd.DataFrame) (n : nat) :
  stores h !! s = Some o → frames h !! df o = Some fr →
  (n ≤ pd.nrows fr)%nat →
  ∃ s' h' o' fr',
    DataClassFrame.head s (Z.of_nat n) h = (Ok s', h')
    ∧ s' ≠ s
    ∧ stores h' !! s' = Some o'
    ∧ record_class o' = record_class o
    ∧ frames h' !! df o' = Some fr'
    ∧ pd.nrows fr' = n
    ∧ stores h' !! s = Some o
    ∧ frames h' !! df o = Some fr
    ∧ (∀ i : nat, (i < n)%nat →
         IAtIndexer.__getitem__ s' (Z.of_nat i) h'
         = ((IAtIndexer.__getitem__ s (Z.of_nat i) h).1, h'))
    ∧ (∀ key value r h'',
         IAtIndexer.__setitem__ s' key value h' = (r, h'') →
         ∃ fr2, frames h'' !! df o = Some fr2 ∧ pd.nrows fr2 = pd.nrows fr)
    ∧ (∀ key value r h'',
         AtIndexer.__setitem__ s' key value h' = (r, h'') →
         ∃ fr2, frames h'' !! df o = Some fr2 ∧ pd.nrows fr2 = pd.nrows fr).
Proof.
  intros Hs Hf Hn.
  pose proof (fresh_ne _ _ _ Hs) as Hs'.
  pose proof (fresh_ne _ _ _ Hf) as Hf'.
  eexists _, _, _, _. split; [by apply head_run|].
  split; [done|]. simpl.
  split; [apply lookup_insert_eq|]. simpl.
  split; [done|].
  split; [apply lookup_insert_eq|].
  split.
  { unfold pd.head, pd.nrows in *. rewrite decide_True by lia. simpl.
    rewrite Nat2Z.id. by apply length_take_le. }
  split; [by rewrite lookup_insert_ne|].
  split; [by rewrite lookup_insert_ne|].
  split_and!.
  - intros i Hi.
    erewrite iat_getitem_run;
      [|simpl; apply lookup_insert_eq|simpl; apply lookup_insert_eq].
    erewrite (iat_getitem_run h s) by done. simpl.
    by rewrite read_row_head.
  - intros key value r h'' Hw. exists fr. split; [|done].
    rewrite (iat_setitem_frames _ _ _
               (mkDataClassFrame (record_class o) (fresh (dom (frames h)))
                  (index o) (_cols o))
               _ _ _ (df o) (lookup_insert_eq _ _ _) (not_eq_sym Hf') Hw).
    simpl. by rewrite lookup_insert_ne.
  - intros key value r h'' Hw. exists fr. split; [|done].
    rewrite (at_setitem_frames _ _ _
               (mkDataClassFrame (record_class o) (fresh (dom (frames h)))
                  (index o) (_cols o))
               _ _ _ (df o) (lookup_insert_eq _ _ _) (not_eq_sym Hf') Hw).
    simpl. by rewrite lookup_insert_ne.
Qed.

Lemma head_first_rows_witness :
  ∃ s' h',
    DataClassFrame.head 0%nat 2 heap_three_points = (Ok s', h')
    ∧ IAtIndexer.__getitem__ s' 1 h' = (Ok (point "b" 2 1), h').
Proof.
  destruct (head_first_rows heap_three_points 0%nat
              (mkDataClassFrame rc_point 0%nat None 0%nat)
              frame_three_points 2)
    as (s' & h' & o' & fr' & Hrun & _ & _ & _ & _ & _ & _ & _ & Hread & _).
  - vm_compute. reflexivity.
  - vm_compute. reflexivity.
  - vm_compute. lia.
  - exists s', h'. split; [exact Hrun|].
    assert (H12 : (1 < 2)%nat) by lia.
    exact (Hread 1%nat H12).
Defined.

(** ** The column accessor of a view *)

Lemma getitem_length (fr : pd.DataFrame) (name : string) :
  name ∈ pd.names fr →
  ∃ col, pd.getitem fr name = Ok col ∧ length col = pd.nrows fr.
Proof.
  intros Hin. unfold pd.getitem.
  destruct (col_index_is_Some _ _ Hin) as [j ->].
  eexists. split; [done|].
  unfold pd.column_cells, pd.nrows. by rewrite !length_fmap.
Qed.

(** C9, as amended.  Let [s] be a store whose column accessor refers to
    [s] itself, as the accessor of every store made by a constructor
    does, with [m] rows, and let [0 <= n < m].  The view [s.head(n)] has
    [n] rows and its [cols] is the accessor object of [s]; reading a
    field name through it gives the column of the table of [s], of
    length [m]. *)
Theorem head_cols_reads_parent (h : heap) (s : loc) (o : DataClassFrame)
    (fr : pd.DataFrame) (c : _ColumnsWrapper) (name : string) (n : Z) :
  stores h !! s = Some o → frames h !! df o = Some fr →
  wrappers h !! _cols o = Some c → __dcf c = s →
  name ∈ __cols c → name ∈ pd.names fr →
  0 <= n < Z.of_nat (pd.nrows fr) →
  ∃ s' h' o' fr' col,
    DataClassFrame.head s n h = (Ok s', h')
    ∧ stores h' !! s' = Some o'
    ∧ frames h' !! df o' = Some fr'
    ∧ pd.nrows fr' = Z.to_nat n
    ∧ DataClassFrame.cols s' h' = (Ok (_cols o), h')
    ∧ DataClassFrame.cols s h' = (Ok (_cols o), h')
    ∧ ColumnsWrapper.__getattribute__ (_cols o) name h' = (Ok col, h')
    ∧ pd.getitem fr name = Ok col
    ∧ length col = pd.nrows fr
    ∧ length col ≠ pd.nrows fr'.
Proof.
  intros Hs Hf Hw Hdcf Hname Hcol Hn.
  pose proof (fresh_ne _ _ _ Hs) as Hs'.
  pose proof (fresh_ne _ _ _ Hf) as Hf'.
  destruct (getitem_length fr name Hcol) as (col & Hget & Hlen).
  assert (Hrows : pd.nrows (pd.head fr n) = Z.to_nat n).
  { unfold pd.head, pd.nrows in *. rewrite decide_True by lia. simpl.
    apply length_take_le. lia. }
  eexists _, _, _, _, col. split; [by apply head_run|].
  split; [apply lookup_insert_eq|]. simpl.
  split; [apply lookup_insert_eq|].
  split; [done|].
  split.
  { unfold DataClassFrame.cols. run. by rewrite lookup_insert_eq. }
  split.
  { unfold DataClassFrame.cols. run.
    rewrite lookup_insert_ne by done. by rewrite Hs. }
  split.
  { unfold ColumnsWrapper.__getattribute__. run. rewrite Hw. simpl.
    rewrite decide_True by done. run. rewrite Hdcf.
    rewrite lookup_insert_ne by done. rewrite Hs. simpl.
    rewrite lookup_insert_ne by done. rewrite Hf. simpl.
    by rewrite Hget. }
  split; [done|]. split; [done|]. rewrite Hlen, Hrows. lia.
Qed.

Lemma head_cols_reads_parent_witness :
  ∃ s' h' col,
    DataClassFrame.head 0%nat 2 heap_three_points = (Ok s', h')
    ∧ ColumnsWrapper.__getattribute__ 0%nat "x" h' = (Ok col, h')
    ∧ length col = 3%nat.
Proof.
  destruct (head_cols_reads_parent heap_three_points 0%nat
              (mkDataClassFrame rc_point 0%nat None 0%nat)
              frame_three_points
              (ColumnsWrapper.__init__ 0%nat frame_three_points) "x" 2)
    as (s' & h' & o' & fr' & col & Hrun & _ & _ & _ & _ & _ & Hget & _ & Hlen & _).
  - vm_compute. reflexivity.
  - vm_compute. reflexivity.
  - vm_compute. reflexivity.
  - reflexivity.
  - apply elem_of_list_to_set.
    apply list_elem_of_further, list_elem_of_here.
  - apply list_elem_of_further, list_elem_of_here.
  - unfold pd.nrows. simpl. lia.
  - exists s', h', col. split; [exact Hrun|]. split; [exact Hget|exact Hlen].
Defined.

(** The claim of C9 fails for a store that is itself a view.  Store [1]
    is [head(2)] of the three points and has [m = 2] rows; its
    [head(1)] is store [2]; the column ["x"] read through the accessor
    of store [2] has length 3, which is neither [m] nor [n]. *)
Lemma head_cols_of_view_counterexample :
  (∃ o fr, stores heap_view !! 1%nat = Some o
           ∧ frames heap_view !! df o = Some fr
           ∧ pd.nrows fr = 2%nat)
  ∧ DataClassFrame.head 1%nat 1 heap_view = (Ok 2%nat, heap_view_of_view)
  ∧ DataClassFrame.cols 2%nat heap_view_of_view = (Ok 0%nat, heap_view_of_view)
  ∧ (ColumnsWrapper.__getattribute__ 0%nat "x" heap_view_of_view).1
    = Ok [NpGeneric (SInt 1); NpGeneric (SInt 2); NpGeneric (SInt 3)].
Proof.
  split.
  { eexists _, _. split; [vm_compute; reflexivity|].
    split; [vm_compute; reflexivity|]. reflexivity. }
  split; [vm_compute; reflexivity|].
  split; [vm_compute; reflexivity|].
  vm_compute. reflexivity.
Qed.

(** ** The columns of a store's table *)









Lemma names_head (fr : pd.DataFrame) (n : Z) :
  pd.names (pd.head fr n) = pd.names fr.
Proof. done. Qed.







(** * Further properties *)

(** ** Positional reads: bounds, and what a read returns *)

Lemma position_out_of_range (n : nat) (key : Z) :
  key < - Z.of_nat n ∨ Z.of_nat n <= key → pd.position n key = None.
Proof.
  intros Hk. unfold pd.position.
  rewrite decide_False by lia. by rewrite decide_False by lia.
Qed.

Lemma position_negative (n : nat) (key : Z) :
  - Z.of_nat n <= key < 0 →
  pd.position n key = pd.position n (Z.of_nat n + key).
Proof.
  intros Hk. unfold pd.position.
  rewrite decide_False by lia. rewrite decide_True by lia.
  by rewrite decide_True by lia.
Qed.

(** X1.  Positions of a store of [n] rows.  A positional read at a key
    below [-n] or not below [n] raises [IndexOutOfRange] and changes
    nothing; at a key from [-n] to [-1] it is the read at [n + key]. *)
Theorem iat_getitem_positions (h : heap) (s : loc) (o : DataClassFrame)
    (fr : pd.DataFrame) (key : Z) :
  stores h !! s = Some o → frames h !! df o = Some fr →
  (key < - Z.of_nat (pd.nrows fr) ∨ Z.of_nat (pd.nrows fr) <= key →
   IAtIndexer.__getitem__ s key h = (Raise IndexOutOfRange, h))
  ∧ (- Z.of_nat (pd.nrows fr) <= key < 0 →
     IAtIndexer.__getitem__ s key h
     = IAtIndexer.__getitem__ s (Z.of_nat (pd.nrows fr) + key) h).
Proof.
  intros Hs Hf. split; intros Hk.
  - rewrite (iat_getitem_run h s o fr) by done.
    unfold read_row, pd.iloc_get. by rewrite position_out_of_range.
  - rewrite !(iat_getitem_run h s o fr) by done.
    unfold read_row, pd.iloc_get. by rewrite position_negative.
Qed.

Lemma iat_getitem_positions_witness :
  IAtIndexer.__getitem__ 0%nat 3 heap_three_points
  = (Raise IndexOutOfRange, heap_three_points)
  ∧ IAtIndexer.__getitem__ 0%nat (-1) heap_three_points
    = IAtIndexer.__getitem__ 0%nat 2 heap_three_points.
Proof.
  destruct (iat_getitem_positions heap_three_points 0%nat
              (mkDataClassFrame rc_point 0%nat None 0%nat)
              frame_three_points 3) as [Hout _];
    [vm_compute; reflexivity..|].
  destruct (iat_getitem_positions heap_three_points 0%nat
              (mkDataClassFrame rc_point 0%nat None 0%nat)
              frame_three_points (-1)) as [_ Hneg];
    [vm_compute; reflexivity..|].
  split.
  - apply Hout. right. unfold pd.nrows. simpl. lia.
  - apply Hneg. unfold pd.nrows. simpl. lia.
Defined.

Lemma dict_get_fmap (f : pyvalue → pyvalue) (d : list (string * pyvalue))
    (k : string) :
  dict_get ((λ kv, (kv.1, f kv.2)) <$> d) k = f <$> dict_get d k.
Proof.
  induction d as [|[k' v] d IH]; [done|]. simpl.
  by destruct (decide (k' = k)).
Qed.

(** What [record_class] called with keywords gives, when it gives
    something. *)
Lemma construct_Ok (rc : dataclass) (row : list (string * pyvalue))
    (r : pyobject) :
  construct rc row = Ok r →
  ob_type r = cls_name rc :: cls_bases rc
  ∧ (ob_dict r).*1 = field_names rc
  ∧ Forall (λ kv, dict_get row kv.1 = Some kv.2) (ob_dict r).
Proof.
  unfold construct. destruct (bool_decide _); [|done].
  destruct (mapM _ _) as [d|] eqn:Hm; [|done]. intros [= <-]. simpl.
  split; [done|]. apply mapM_Some in Hm.
  induction Hm as [|n kv ns d Hkv _ [IH1 IH2]]; [done|]. simpl.
  destruct (dict_get row n) as [v|] eqn:Hv; simplify_eq/=.
  split; [by f_equal|]. by constructor.
Qed.

Lemma to_basic_type_idemp (v : pyvalue) :
  to_basic_type (to_basic_type v) = to_basic_type v.
Proof. by destruct v. Qed.

Lemma construct_unboxed_Ok (rc : dataclass) (row : list (string * pyvalue))
    (r : pyobject) :
  construct rc ((λ kv, (kv.1, to_basic_type kv.2)) <$> row) = Ok r →
  conforms rc r ∧ Forall (λ kv, to_basic_type kv.2 = kv.2) (ob_dict r).
Proof.
  intros Hc. destruct (construct_Ok _ _ _ Hc) as (Ht & Hk & Hv).
  split.
  - split; [|done]. unfold isinstance. rewrite Ht.
    apply bool_decide_eq_true_2. left.
  - eapply Forall_impl; [exact Hv|]. intros [k v]. simpl.
    rewrite dict_get_fmap. destruct (dict_get row k); intros [= <-].
    apply to_basic_type_idemp.
Qed.

(** X2.  Whatever the table holds, a record that a positional or a
    keyed read returns is an instance of the store's record type, its
    [__dict__] holds exactly the fields in declaration order, and none
    of its values is a numpy scalar. *)
Theorem getitem_returns_plain_record (h h' : heap) (s : loc)
    (o : DataClassFrame) (r : pyobject) :
  stores h !! s = Some o →
  (∃ key, IAtIndexer.__getitem__ s key h = (Ok r, h'))
  ∨ (∃ key, AtIndexer.__getitem__ s key h = (Ok r, h')) →
  conforms (record_class o) r
  ∧ Forall (λ kv, to_basic_type kv.2 = kv.2) (ob_dict r).
Proof.
  intros Hs [[key Hrun]|[key Hrun]].
  - unfold IAtIndexer.__getitem__ in Hrun. revert Hrun. run.
    rewrite Hs. simpl.
    destruct (frames h !! df o); simpl; [|done].
    destruct (pd.iloc_get _ _) as [sel|]; simpl; [|done].
    destruct (IAtIndexer.one_row sel) as [row|]; simpl; [|done].
    destruct (construct _ _) as [r'|] eqn:Hc; simpl; [|done].
    intros [= <- _]. by apply construct_unboxed_Ok in Hc.
  - unfold AtIndexer.__getitem__ in Hrun. revert Hrun. run.
    rewrite Hs. simpl.
    destruct (frames h !! df o); simpl; [|done].
    destruct (pd.loc_get _ _) as [sel|]; simpl; [|done].
    destruct (IAtIndexer.one_row sel) as [row|]; simpl; [|done].
    destruct (construct _ _) as [r'|] eqn:Hc; simpl; [|done].
    intros [= <- _]. by apply construct_unboxed_Ok in Hc.
Qed.

Lemma getitem_returns_plain_record_witness :
  conforms rc_point (point "b" 2 1)
  ∧ Forall (λ kv, to_basic_type kv.2 = kv.2) (ob_dict (point "b" 2 1)).
Proof.
  apply (getitem_returns_plain_record heap_three_points heap_three_points
           0%nat (mkDataClassFrame rc_point 0%nat None 0%nat)).
  - vm_compute. reflexivity.
  - left. exists 1. vm_compute. reflexivity.
Defined.

(** X3.  Reads change nothing: whatever they return or raise, a
    positional read, a keyed read, a read through the column accessor,
    [cols] and [to_dataframe] leave the heap as it was. *)
Theorem reads_keep_heap (h h' : heap) :
  (∀ s key r, IAtIndexer.__getitem__ s key h = (r, h') → h' = h)
  ∧ (∀ s key r, AtIndexer.__getitem__ s key h = (r, h') → h' = h)
  ∧ (∀ w name r, ColumnsWrapper.__getattribute__ w name h = (r, h') → h' = h)
  ∧ (∀ s r, DataClassFrame.cols s h = (r, h') → h' = h)
  ∧ (∀ s r, DataClassFrame.to_dataframe s h = (r, h') → h' = h).
Proof.
  split_and!.
  - intros s key r. unfold IAtIndexer.__getitem__. run.
    unfold from_option. intros.
    repeat (case_match; simplify_eq/=; try done).
  - intros s key r. unfold AtIndexer.__getitem__. run.
    unfold from_option. intros.
    repeat (case_match; simplify_eq/=; try done).
  - intros w name r. unfold ColumnsWrapper.__getattribute__. run.
    unfold from_option. intros.
    repeat (case_match; simplify_eq/=; try done).
  - intros s r. unfold DataClassFrame.cols. run.
    unfold from_option. intros.
    repeat (case_match; simplify_eq/=; try done).
  - intros s r. unfold DataClassFrame.to_dataframe. run.
    unfold from_option. intros.
    repeat (case_match; simplify_eq/=; try done).
Qed.

Lemma reads_keep_heap_witness :
  (AtIndexer.__getitem__ 0%nat (LScalar (Plain (SStr "a")))
     heap_two_points).2 = heap_two_points.
Proof.
  destruct (AtIndexer.__getitem__ 0%nat (LScalar (Plain (SStr "a")))
              heap_two_points) as [r h'] eqn:Hrun.
  destruct (reads_keep_heap heap_two_points h') as (_ & Hat & _).
  exact (Hat _ _ _ Hrun).
Defined.

(** ** Positional writes *)

Lemma unbox_row_dict (cols : list (string * pd.dtype)) (cells : list pyvalue) :
  (λ kv : string * pyvalue, (kv.1, to_basic_type kv.2))
    <$> zip_with (λ c v, (c.1, pd.box c.2 v)) cols cells
  = zip cols.*1 (to_basic_type <$> cells).
Proof.
  revert cells. induction cols as [|c cols IH]; intros [|v cells]; try done.
  simpl. rewrite to_basic_type_box. f_equal. apply IH.
Qed.

(** A positional read sees the names of the columns and the cells of
    the row, not the dtypes. *)
Lemma read_row_cells (rc : dataclass) (fr : pd.DataFrame) (key : Z) (i : nat)
    (r : label * list pyvalue) :
  pd.position (pd.nrows fr) key = Some i → pd.body fr !! i = Some r →
  read_row rc fr key
  = construct rc (zip (pd.names fr) (to_basic_type <$> r.2)).
Proof.
  intros Hp Hr. unfold read_row, pd.iloc_get. rewrite Hp, Hr. simpl.
  unfold pd.row_to_dict. by rewrite unbox_row_dict.
Qed.





(** X5.  A positional write out of range.  At a key below [-n] or not
    below [n], for [n] rows, the write raises [IndexOutOfRange] and
    leaves the heap as it was: it does not add a row. *)
Theorem iat_setitem_out_of_range (h : heap) (s : loc) (o : DataClassFrame)
    (fr : pd.DataFrame) (key : Z) (value : pyobject) :
  stores h !! s = Some o → frames h !! df o = Some fr →
  key < - Z.of_nat (pd.nrows fr) ∨ Z.of_nat (pd.nrows fr) <= key →
  IAtIndexer.__setitem__ s key value h = (Raise IndexOutOfRange, h).
Proof.
  intros Hs Hf Hk. unfold IAtIndexer.__setitem__, pd.iloc_set. run.
  rewrite Hs. simpl. rewrite Hf. simpl.
  by rewrite position_out_of_range.
Qed.

Lemma iat_setitem_out_of_range_witness :
  IAtIndexer.__setitem__ 0%nat 3 (point "z" 9 9) heap_three_points
  = (Raise IndexOutOfRange, heap_three_points).
Proof.
  apply (iat_setitem_out_of_range heap_three_points 0%nat
           (mkDataClassFrame rc_point 0%nat None 0%nat) frame_three_points).
  - vm_compute. reflexivity.
  - vm_compute. reflexivity.
  - right. unfold pd.nrows. simpl. lia.
Defined.

(** ** Keys *)

Lemma same_key_class (a b : pyvalue) :
  same_key a b = bool_decide (key_class a = key_class b).
Proof.
  unfold same_key, py_eq, scalar_eqb.
  destruct a as [[x|[]|x]|[x|[]|x]| | |i], b as [[y|[]|y]|[y|[]|y]| | |j];
    simpl; try done;
    rewrite ?orb_false_r;
    try (apply bool_decide_ext; split; [by intros ->|by intros [= ->]]);
    try (apply bool_decide_ext; split; [by intros ->|by intros [=]]);
    try (apply bool_decide_ext; split; [by intros <-|by intros [=]]).
Qed.






Lemma filter_unique {A} (P : A → Prop) `{∀ x, Decision (P x)} (l : list A)
    (i : nat) (x : A) :
  l !! i = Some x → P x →
  (∀ j y, j ≠ i → l !! j = Some y → ¬ P y) →
  filter P l = [x].
Proof.
  revert i. induction l as [|a l IH]; intros i Hi Hx Hothers; [done|].
  destruct i as [|i]; simplify_eq/=.
  - rewrite filter_cons_True by done. f_equal.
    assert (Forall (λ y, ¬ P y) l) as Hall.
    { apply Forall_lookup. intros j y Hj. by apply (Hothers (S j)). }
    clear -Hall. induction Hall as [|y l Hy _ IH']; [done|].
    by rewrite filter_cons_False.
  - rewrite filter_cons_False by by apply (Hothers 0%nat).
    apply (IH i); [done..|]. intros j y Hj. apply (Hothers (S j)). lia.
Qed.

Lemma filter_none {A} (P : A → Prop) `{∀ x, Decision (P x)} (l : list A) :
  Forall (λ y, ¬ P y) l → filter P l = [].
Proof.
  induction 1 as [|y l Hy _ IH]; [done|]. by rewrite filter_cons_False.
Qed.

Lemma at_getitem_run (h : heap) (s : loc) (o : DataClassFrame)
    (fr : pd.DataFrame) (key : label) :
  stores h !! s = Some o → frames h !! df o = Some fr →
  AtIndexer.__getitem__ s key h = (read_key (record_class o) fr key, h).
Proof.
  intros Hs Hf. unfold AtIndexer.__getitem__, read_key. run.
  rewrite Hs. simpl. rewrite Hf. simpl.
  destruct (pd.loc_get fr key) as [sel|]; simpl; [|done].
  destruct (IAtIndexer.one_row sel); simpl; [|done].
  by destruct (construct _ _).
Qed.

(** A scalar key that selects one row reads that row. *)
Lemma read_key_unique (rc : dataclass) (fr : pd.DataFrame) (k : pyvalue)
    (i : nat) (r : label * list pyvalue) :
  pd.body fr !! i = Some r → pd.selects (LScalar k) r.1 = true →
  (∀ j r', j ≠ i → pd.body fr !! j = Some r' →
           pd.selects (LScalar k) r'.1 = false) →
  read_key rc fr (LScalar k)
  = construct rc (zip (pd.names fr) (to_basic_type <$> r.2)).
Proof.
  intros Hr Hsel Hothers. unfold read_key, pd.loc_get.
  rewrite (filter_unique _ _ i r); [|done..|].
  - simpl. unfold pd.row_to_dict. by rewrite unbox_row_dict.
  - intros j r' Hj Hr'. rewrite (Hothers j r' Hj Hr'). done.
Qed.

(** X6.  A keyed read of a key that labels no row.  On any store, under
    a single value that is the same as no row label, the read raises
    [KeyError] and changes nothing. *)
Theorem at_getitem_missing_key (h : heap) (s : loc) (o : DataClassFrame)
    (fr : pd.DataFrame) (k : pyvalue) :
  stores h !! s = Some o → frames h !! df o = Some fr →
  Forall (λ l, pd.selects (LScalar k) l = false) (pd.index fr) →
  AtIndexer.__getitem__ s (LScalar k) h = (Raise (KeyError "not in index"), h).
Proof.
  intros Hs Hf Hnone. rewrite (at_getitem_run h s o fr) by done.
  unfold read_key, pd.loc_get. rewrite filter_none; [done|].
  apply Forall_forall. intros r Hr.
  rewrite Forall_forall in Hnone.
  rewrite (Hnone r.1); [done|]. apply list_elem_of_fmap. by exists r.
Qed.

Lemma at_getitem_missing_key_witness :
  AtIndexer.__getitem__ 0%nat (LScalar (Plain (SInt 7))) heap_three_points
  = (Raise (KeyError "not in index"), heap_three_points).
Proof.
  apply (at_getitem_missing_key heap_three_points 0%nat
           (mkDataClassFrame rc_point 0%nat None 0%nat) frame_three_points).
  - vm_compute. reflexivity.
  - vm_compute. reflexivity.
  - repeat constructor.
Defined.






(** X8.  When a keyed write can succeed.  If a keyed write returns, the
    store is indexed by one field name given as a string, the key is a
    single value, the value written has that field, and the key equals
    it.  On a store without index the write raises [KeyError] and
    changes nothing. *)
Theorem at_setitem_Ok_only_if (h : heap) (s : loc) (key : label)
    (value : pyobject) :
  (∀ h', AtIndexer.__setitem__ s key value h = (Ok (), h') →
     ∃ o n k v, stores h !! s = Some o
                ∧ index o = Some (pd.IdxName n)
                ∧ key = LScalar k
                ∧ dict_get (ob_dict value) n = Some v
                ∧ py_eq k v = true)
  ∧ (∀ o, stores h !! s = Some o → index o = None →
       AtIndexer.__setitem__ s key value h = (Raise (KeyError "None"), h)).
Proof.
  split.
  - intros h'. unfold AtIndexer.__setitem__. run.
    destruct (stores h !! s) as [o|] eqn:Hs; simpl; [|done].
    destruct (index o) as [[n|ns]|] eqn:Hix; simpl; [|done..].
    destruct (dict_get (ob_dict value) n) as [v|] eqn:Hv; simpl; [|done].
    destruct key as [k|ks]; simpl; [|done].
    destruct (py_eq k v) eqn:Hkv; simpl; [|done].
    intros _. by exists o, n, k, v.
  - intros o Hs Hix. unfold AtIndexer.__setitem__. run.
    rewrite Hs. simpl. by rewrite Hix.
Qed.

Lemma at_setitem_Ok_only_if_witness :
  AtIndexer.__setitem__ 0%nat (LScalar (Plain (SInt 0))) (point "a" 1 0)
    heap_two_points
  = (Raise (KeyError "None"), heap_two_points).
Proof.
  destruct (at_setitem_Ok_only_if heap_two_points 0%nat
              (LScalar (Plain (SInt 0))) (point "a" 1 0)) as [_ Hnone].
  apply (Hnone (mkDataClassFrame rc_point 0%nat None 0%nat)).
  - vm_compute. reflexivity.
  - reflexivity.
Defined.








(** ** The column accessor *)















(** ** Copies and views *)

Lemma iat_setitem_by_attributes (h : heap) (s c : loc) (key : Z)
    (value : pyobject) :
  stores h !! c = stores h !! s →
  IAtIndexer.__setitem__ c key value h = IAtIndexer.__setitem__ s key value h.
Proof. intros Heq. unfold IAtIndexer.__setitem__. run. by rewrite Heq. Qed.

Lemma at_setitem_by_attributes (h : heap) (s c : loc) (key : label)
    (value : pyobject) :
  stores h !! c = stores h !! s →
  AtIndexer.__setitem__ c key value h = AtIndexer.__setitem__ s key value h.
Proof. intros Heq. unfold AtIndexer.__setitem__. run. by rewrite Heq. Qed.

Lemma iat_getitem_by_attributes (h : heap) (s c : loc) (key : Z) :
  stores h !! c = stores h !! s →
  IAtIndexer.__getitem__ c key h = IAtIndexer.__getitem__ s key h.
Proof. intros Heq. unfold IAtIndexer.__getitem__. run. by rewrite Heq. Qed.

Lemma at_getitem_by_attributes (h : heap) (s c : loc) (key : label) :
  stores h !! c = stores h !! s →
  AtIndexer.__getitem__ c key h = AtIndexer.__getitem__ s key h.
Proof. intros Heq. unfold AtIndexer.__getitem__. run. by rewrite Heq. Qed.

(** X14.  A shallow copy shares the table.  [copy(deep=False)] returns
    a new store with the attributes of the original, the same table
    and the same accessor among them, and changes nothing else.  From
    then on, as long as the two stores keep their attributes, which
    indexer writes do, a write through the copy is the write through
    the original, and a read through one returns what the read through
    the other returns. *)
Theorem copy_shallow_shares_table (h : heap) (s : loc) (o : DataClassFrame) :
  stores h !! s = Some o →
  ∃ c h',
    DataClassFrame.copy_shallow s h = (Ok c, h')
    ∧ c ≠ s
    ∧ stores h' !! c = Some o ∧ stores h' !! s = Some o
    ∧ frames h' = frames h ∧ wrappers h' = wrappers h
    ∧ ∀ h'', stores h'' !! c = Some o → stores h'' !! s = Some o →
        (∀ key value,
           IAtIndexer.__setitem__ c key value h''
           = IAtIndexer.__setitem__ s key value h''
           ∧ stores (IAtIndexer.__setitem__ c key value h'').2 = stores h'')
        ∧ (∀ key value,
             AtIndexer.__setitem__ c key value h''
             = AtIndexer.__setitem__ s key value h''
             ∧ stores (AtIndexer.__setitem__ c key value h'').2 = stores h'')
        ∧ (∀ key, IAtIndexer.__getitem__ c key h''
                  = IAtIndexer.__getitem__ s key h'')
        ∧ (∀ key, AtIndexer.__getitem__ c key h''
                  = AtIndexer.__getitem__ s key h'').
Proof.
  intros Hs. pose proof (fresh_ne _ _ _ Hs) as Hne.
  eexists _, _. split.
  { unfold DataClassFrame.copy_shallow. run. by rewrite Hs. }
  split; [done|]. simpl.
  split; [apply lookup_insert_eq|].
  split; [by rewrite lookup_insert_ne|].
  split; [done|]. split; [done|].
  intros h'' Hc' Hs'.
  assert (Heq : stores h'' !! fresh (dom (stores h)) = stores h'' !! s)
    by by rewrite Hc', Hs'.
  split_and!.
  - intros key value. split; [by apply iat_setitem_by_attributes|].
    unfold IAtIndexer.__setitem__. run. rewrite Hc'. simpl.
    destruct (frames h'' !! df o); simpl; [|done].
    by destruct (pd.iloc_set _ _ _).
  - intros key value. split; [by apply at_setitem_by_attributes|].
    unfold AtIndexer.__setitem__. run. rewrite Hc'. simpl.
    destruct (AtIndexer.index_value_in_record _ _) as [v|]; simpl; [|done].
    destruct (AtIndexer.key_differs key v); run; [done|].
    by destruct (frames h'' !! df o).
  - intros key. by apply iat_getitem_by_attributes.
  - intros key. by apply at_getitem_by_attributes.
Qed.

Lemma copy_shallow_shares_table_witness :
  ∃ c h', DataClassFrame.copy_shallow 0%nat heap_three_points = (Ok c, h')
          ∧ c ≠ 0%nat
          ∧ IAtIndexer.__getitem__ c 1
              (IAtIndexer.__setitem__ c 1 (point "z" 9 9) h').2
            = IAtIndexer.__getitem__ 0%nat 1
                (IAtIndexer.__setitem__ 0%nat 1 (point "z" 9 9) h').2.
Proof.
  destruct (copy_shallow_shares_table heap_three_points 0%nat
              (mkDataClassFrame rc_point 0%nat None 0%nat))
    as (c & h' & Hrun & Hne & Hc & Hs & _ & _ & Hshare).
  - vm_compute. reflexivity.
  - exists c, h'. split; [exact Hrun|]. split; [exact Hne|].
    destruct (Hshare h' Hc Hs) as (Hw & _ & _ & _).
    destruct (Hw 1 (point "z" 9 9)) as [Hsame Hst].
    rewrite <- Hsame.
    destruct (Hshare (IAtIndexer.__setitem__ c 1 (point "z" 9 9) h').2)
      as (_ & _ & Hr & _).
    + rewrite Hst. exact Hc.
    + rewrite Hst. exact Hs.
    + apply Hr.
Defined.

Lemma head_head_frame (fr : pd.DataFrame) (a b : nat) :
  pd.head (pd.head fr (Z.of_nat a)) (Z.of_nat b)
  = pd.head fr (Z.of_nat (a `min` b)).
Proof.
  unfold pd.head. rewrite !decide_True by lia. simpl.
  rewrite !Nat2Z.id. f_equal. rewrite take_take. f_equal. lia.
Qed.

(** X15.  The head of a head.  Taking [head(a)] of a store and then
    [head(b)] of that view gives a store over the first [min a b] rows
    of the original table, of the same record type, with the index
    attribute and the accessor object of the original. *)
Theorem head_of_head (h : heap) (s : loc) (o : DataClassFrame)
    (fr : pd.DataFrame) (a b : nat) :
  stores h !! s = Some o → frames h !! df o = Some fr →
  ∃ v1 h1 v2 h2 o2,
    DataClassFrame.head s (Z.of_nat a) h = (Ok v1, h1)
    ∧ DataClassFrame.head v1 (Z.of_nat b) h1 = (Ok v2, h2)
    ∧ stores h2 !! v2 = Some o2
    ∧ frames h2 !! df o2 = Some (pd.head fr (Z.of_nat (a `min` b)))
    ∧ record_class o2 = record_class o
    ∧ index o2 = index o
    ∧ _cols o2 = _cols o
    ∧ stores h2 !! s = Some o ∧ frames h2 !! df o = Some fr.
Proof.
  intros Hs Hf.
  pose proof (fresh_ne _ _ _ Hs) as Hs1.
  pose proof (fresh_ne _ _ _ Hf) as Hf1.
  eexists _, _, _, _, _.
  split; [by apply head_run|].
  split.
  { apply head_run; simpl; apply lookup_insert_eq. }
  simpl. split; [apply lookup_insert_eq|]. simpl.
  split; [by rewrite lookup_insert_eq, head_head_frame|].
  split; [done|]. split; [done|]. split; [done|].
  assert (Hs2 : stores (mkHeap
      (<[fresh (dom (frames h)) := pd.head fr (Z.of_nat a)]> (frames h))
      (<[fresh (dom (stores h)) :=
           mkDataClassFrame (record_class o) (fresh (dom (frames h)))
             (index o) (_cols o)]> (stores h)) (wrappers h)) !! s = Some o).
  { simpl. by rewrite lookup_insert_ne. }
  assert (Hf2 : frames (mkHeap
      (<[fresh (dom (frames h)) := pd.head fr (Z.of_nat a)]> (frames h))
      (<[fresh (dom (stores h)) :=
           mkDataClassFrame (record_class o) (fresh (dom (frames h)))
             (index o) (_cols o)]> (stores h)) (wrappers h)) !! df o = Some fr).
  { simpl. by rewrite lookup_insert_ne. }
  split.
  - rewrite lookup_insert_ne; [exact Hs2|]. by eapply fresh_ne.
  - rewrite lookup_insert_ne; [exact Hf2|]. by eapply fresh_ne.
Qed.

Lemma head_of_head_witness :
  ∃ v1 h1 v2 h2,
    DataClassFrame.head 0%nat 2 heap_three_points = (Ok v1, h1)
    ∧ DataClassFrame.head v1 5 h1 = (Ok v2, h2)
    ∧ ∃ o2, stores h2 !! v2 = Some o2
            ∧ frames h2 !! df o2 = Some (pd.head frame_three_points 2).
Proof.
  destruct (head_of_head heap_three_points 0%nat
              (mkDataClassFrame rc_point 0%nat None 0%nat)
              frame_three_points 2 5)
    as (v1 & h1 & v2 & h2 & o2 & H1 & H2 & Hs2 & Hf2 & _).
  - vm_compute. reflexivity.
  - vm_compute. reflexivity.
  - exists v1, h1, v2, h2. split; [exact H1|]. split; [exact H2|].
    exists o2. split; [exact Hs2|exact Hf2].
Defined.

(** ** Adopting a table *)




Lemma range_labels_lookup (n j : nat) (l : label) :
  pd.range_labels 0 n !! j = Some l → l = LScalar (Plain (SInt (Z.of_nat j))).
Proof.
  unfold pd.range_labels. rewrite list_lookup_fmap. intros Hl.
  apply fmap_Some in Hl as (i & Hi & ->).
  apply lookup_seq in Hi as [-> _]. done.
Qed.

Lemma selects_int (a b : Z) :
  pd.selects (LScalar (Plain (SInt a))) (LScalar (Plain (SInt b)))
  = bool_decide (a = b).
Proof.
  simpl. rewrite same_key_class. simpl. apply bool_decide_ext.
  split; [by intros [= ->]|by intros ->].
Qed.

Lemma range_labelled_row (fr : pd.DataFrame) (j : nat)
    (r : label * list pyvalue) :
  pd.index fr = pd.range_labels 0 (pd.nrows fr) → pd.body fr !! j = Some r →
  r.1 = LScalar (Plain (SInt (Z.of_nat j))).
Proof.
  intros Hlab Hr. apply (range_labels_lookup (pd.nrows fr)).
  rewrite <- Hlab. unfold pd.index. by rewrite list_lookup_fmap, Hr.
Qed.

(** Under row labels 0, 1, ... the key [i] reads the row at position
    [i]. *)
Lemma read_key_position (rc : dataclass) (fr : pd.DataFrame) (i : nat) :
  pd.index fr = pd.range_labels 0 (pd.nrows fr) → (i < pd.nrows fr)%nat →
  read_key rc fr (LScalar (Plain (SInt (Z.of_nat i))))
  = read_row rc fr (Z.of_nat i).
Proof.
  intros Hlab Hi.
  destruct (lookup_lt_is_Some_2 (pd.body fr) i) as [r Hr]; [done|].
  rewrite (read_row_cells rc fr _ i r) by (by apply position_nat || done).
  apply (read_key_unique rc fr _ i r); [done| |].
  - rewrite (range_labelled_row fr i r) by done.
    rewrite selects_int. by apply bool_decide_eq_true_2.
  - intros j r' Hj Hr'. rewrite (range_labelled_row fr j r') by done.
    rewrite selects_int. apply bool_decide_eq_false_2. lia.
Qed.

Lemma read_key_beyond (rc : dataclass) (fr : pd.DataFrame) (k : Z) :
  pd.index fr = pd.range_labels 0 (pd.nrows fr) →
  k < 0 ∨ Z.of_nat (pd.nrows fr) <= k →
  read_key rc fr (LScalar (Plain (SInt k))) = Raise (KeyError "not in index").
Proof.
  intros Hlab Hk. unfold read_key, pd.loc_get. rewrite filter_none; [done|].
  apply Forall_lookup. intros j r Hr.
  rewrite (range_labelled_row fr j r) by done.
  rewrite selects_int. apply lookup_lt_Some in Hr. unfold pd.nrows in Hk.
  intros Hsel. apply bool_decide_eq_true_1 in Hsel. lia.
Qed.

Lemma init_Ok_adopts (rc : dataclass) (data : list pyobject)
    (index : option pd.index_arg) (h : heap) (s : loc) (h' : heap) :
  DataClassFrame.__init__ rc data index h = (Ok s, h') →
  ∃ fr, DataClassFrame._from_dataframe rc (Some fr) index h = (Ok s, h').
Proof.
  unfold DataClassFrame.__init__. run.
  destruct (DataClassFrame.validate_from rc 0 data) as [ds|]; simpl; [|done].
  destruct (decide _); [done|].
  destruct (DataClassFrame._dataclass_to_empty_dataframe rc) as [frame|];
    simpl; [|done].
  intros Hrun. by eexists.
Qed.

Lemma from_dataframe_Ok_adopts (rc : dataclass) (data : option pd.DataFrame)
    (index : option pd.index_arg) (h : heap) (s : loc) (h' : heap) :
  DataClassFrame.from_dataframe rc data index h = (Ok s, h') →
  ∃ fr, DataClassFrame._from_dataframe rc (Some fr) index h = (Ok s, h').
Proof.
  unfold DataClassFrame.from_dataframe. destruct data as [fr|]; [by eexists|].
  destruct (add_fields_total (cls_fields rc) pd.empty eq_refl)
    as (fr & Hfr & _).
  intros Hrun. exists fr. rewrite <- Hrun.
  unfold DataClassFrame._from_dataframe. run.
  unfold DataClassFrame._dataclass_to_empty_dataframe. by rewrite Hfr.
Qed.

Lemma reset_index_labels (fr : pd.DataFrame) :
  pd.index (pd.reset_index fr)
  = pd.range_labels 0 (pd.nrows (pd.reset_index fr)).
Proof.
  unfold pd.index, pd.reset_index, pd.nrows. simpl.
  rewrite length_zip_with_l_eq
    by by rewrite length_range_labels, length_fmap.
  rewrite length_range_labels.
  apply fst_zip. by rewrite length_range_labels, length_fmap.
Qed.

(** X17.  A store without index is keyed by position.  After a
    construction or an adoption with no index that succeeded, the rows
    of the store are labelled 0, 1, ..., whatever labels an adopted
    table had: the keyed read under the integer [i] returns what the
    positional read at [i] returns for every [i] below the number of
    rows, and under any other integer, a negative one included, it
    raises [KeyError]. *)
Theorem at_is_iat_without_index (rc : dataclass) (data : list pyobject)
    (table : option pd.DataFrame) (h : heap) (s : loc) (h' : heap) :
  DataClassFrame.__init__ rc data None h = (Ok s, h')
  ∨ DataClassFrame.from_dataframe rc table None h = (Ok s, h') →
  ∃ o fr,
    stores h' !! s = Some o ∧ frames h' !! df o = Some fr
    ∧ pd.index fr = pd.range_labels 0 (pd.nrows fr)
    ∧ (∀ i : nat, (i < pd.nrows fr)%nat →
         AtIndexer.__getitem__ s (LScalar (Plain (SInt (Z.of_nat i)))) h'
         = IAtIndexer.__getitem__ s (Z.of_nat i) h')
    ∧ (∀ k : Z, k < 0 ∨ Z.of_nat (pd.nrows fr) <= k →
         AtIndexer.__getitem__ s (LScalar (Plain (SInt k))) h'
         = (Raise (KeyError "not in index"), h')).
Proof.
  intros Hrun.
  assert (∃ fr0, DataClassFrame._from_dataframe rc (Some fr0) None h
                 = (Ok s, h')) as [fr0 Hfr0].
  { destruct Hrun as [Hrun|Hrun];
      [by eapply init_Ok_adopts|by eapply from_dataframe_Ok_adopts]. }
  rewrite from_dataframe_run in Hfr0. simpl in Hfr0.
  injection Hfr0 as <- <-.
  eexists _, (pd.reset_index fr0).
  split; [apply lookup_insert_eq|]. simpl.
  split; [apply lookup_insert_eq|].
  split; [apply reset_index_labels|].
  split.
  - intros i Hi.
    erewrite at_getitem_run;
      [|simpl; apply lookup_insert_eq|simpl; apply lookup_insert_eq].
    erewrite iat_getitem_run;
      [|simpl; apply lookup_insert_eq|simpl; apply lookup_insert_eq].
    f_equal. apply read_key_position; [apply reset_index_labels|done].
  - intros k Hk.
    erewrite at_getitem_run;
      [|simpl; apply lookup_insert_eq|simpl; apply lookup_insert_eq].
    f_equal. apply read_key_beyond; [apply reset_index_labels|done].
Qed.

Lemma at_is_iat_without_index_witness :
  let res := DataClassFrame.from_dataframe rc_point (Some frame_by_id) None
               empty_heap in
  res.1 = Ok 0%nat
  ∧ AtIndexer.__getitem__ 0%nat (LScalar (Plain (SInt 1))) res.2
    = IAtIndexer.__getitem__ 0%nat 1 res.2.
Proof.
  intros res. split; [vm_compute; reflexivity|].
  destruct (at_is_iat_without_index rc_point [] (Some frame_by_id) empty_heap
              0%nat res.2) as (o & fr & Hs & Hf & _ & Hpos & _).
  - right. vm_compute. reflexivity.
  - assert (Hfr : fr = pd.reset_index frame_by_id).
    { vm_compute in Hs. injection Hs as <-.
      vm_compute in Hf. injection Hf as <-. reflexivity. }
    apply (Hpos 1%nat). rewrite Hfr. vm_compute. lia.
Defined.










(** ** Stores side by side *)

Lemma insert_fresh_subseteq {A} (m : gmap loc A) (x : A) :
  m ⊆ <[fresh (dom m) := x]> m.
Proof. apply insert_subseteq, not_elem_of_dom, is_fresh. Qed.

Lemma installed_extends (rc : dataclass) (fr' : pd.DataFrame)
    (index : option pd.index_arg) (h : heap) :
  frames h ⊆ frames (installed rc fr' index h).2
  ∧ stores h ⊆ stores (installed rc fr' index h).2
  ∧ wrappers h ⊆ wrappers (installed rc fr' index h).2.
Proof. simpl. split_and!; apply insert_fresh_subseteq. Qed.

Lemma from_dataframe_extends (rc : dataclass) (fr : pd.DataFrame)
    (index : option pd.index_arg) (h : heap) :
  let h' := (DataClassFrame._from_dataframe rc (Some fr) index h).2 in
  frames h ⊆ frames h' ∧ stores h ⊆ stores h' ∧ wrappers h ⊆ wrappers h'.
Proof.
  rewrite from_dataframe_run. destruct (relabel fr index) as [fr'|]; simpl.
  - split_and!; apply insert_fresh_subseteq.
  - done.
Qed.

Lemma init_extends (rc : dataclass) (data : list pyobject)
    (index : option pd.index_arg) (h : heap) :
  let h' := (DataClassFrame.__init__ rc data index h).2 in
  frames h ⊆ frames h' ∧ stores h ⊆ stores h' ∧ wrappers h ⊆ wrappers h'.
Proof.
  intros h'.
  assert (h' = h ∨ ∃ fr, h' = (DataClassFrame._from_dataframe rc (Some fr)
                                 index h).2) as [->|[fr ->]].
  { unfold h', DataClassFrame.__init__, bind, lift, raise.
    destruct (DataClassFrame.validate_from rc 0 data) as [ds|]; [|by left].
    destruct (decide _); [by left|].
    destruct (DataClassFrame._dataclass_to_empty_dataframe rc) as [frame|];
      [|by left].
    right. by eexists. }
  - done.
  - apply from_dataframe_extends.
Qed.

Lemma adopt_extends (rc : dataclass) (table : option pd.DataFrame)
    (index : option pd.index_arg) (h : heap) :
  let h' := (DataClassFrame.from_dataframe rc table index h).2 in
  frames h ⊆ frames h' ∧ stores h ⊆ stores h' ∧ wrappers h ⊆ wrappers h'.
Proof.
  unfold DataClassFrame.from_dataframe. destruct table as [fr|].
  - apply from_dataframe_extends.
  - destruct (add_fields_total (cls_fields rc) pd.empty eq_refl)
      as (fr & Hfr & _).
    assert (DataClassFrame._from_dataframe rc None index h
            = DataClassFrame._from_dataframe rc (Some fr) index h) as ->.
    { unfold DataClassFrame._from_dataframe. run.
      unfold DataClassFrame._dataclass_to_empty_dataframe. by rewrite Hfr. }
    apply from_dataframe_extends.
Qed.

Lemma copy_shallow_extends (s : loc) (h : heap) :
  let h' := (DataClassFrame.copy_shallow s h).2 in
  frames h ⊆ frames h' ∧ stores h ⊆ stores h' ∧ wrappers h ⊆ wrappers h'.
Proof.
  unfold DataClassFrame.copy_shallow. run.
  destruct (stores h !! s); simpl; [|done].
  split_and!; [done|apply insert_fresh_subseteq|done].
Qed.

Lemma head_extends (s : loc) (n : Z) (h : heap) :
  let h' := (DataClassFrame.head s n h).2 in
  frames h ⊆ frames h' ∧ stores h ⊆ stores h' ∧ wrappers h ⊆ wrappers h'.
Proof.
  destruct (stores h !! s) as [o|] eqn:Hs.
  - destruct (frames h !! df o) as [fr|] eqn:Hf.
    + rewrite (head_run h s o fr n Hs Hf). simpl.
      split_and!; [apply insert_fresh_subseteq..|done].
    + unfold DataClassFrame.head, DataClassFrame.copy_shallow. run.
      rewrite Hs. simpl. rewrite lookup_insert_ne by by eapply fresh_ne.
      rewrite Hs. simpl. rewrite Hf. simpl.
      split_and!; [done|apply insert_fresh_subseteq|done].
  - unfold DataClassFrame.head, DataClassFrame.copy_shallow. run.
    by rewrite Hs.
Qed.

(** X20.  Making a store leaves the others alone.  Whether it returns
    or raises, a construction, an adoption, a [head] or a shallow copy
    keeps every store, table and accessor the heap held, each with what
    it held, so that the positional and the keyed read of every store
    that was there return afterwards what they returned before. *)
Theorem making_stores_keeps_others (h h' : heap) :
  (∃ rc data index, h' = (DataClassFrame.__init__ rc data index h).2)
  ∨ (∃ rc table index,
       h' = (DataClassFrame.from_dataframe rc table index h).2)
  ∨ (∃ s n, h' = (DataClassFrame.head s n h).2)
  ∨ (∃ s, h' = (DataClassFrame.copy_shallow s h).2) →
  frames h ⊆ frames h' ∧ stores h ⊆ stores h' ∧ wrappers h ⊆ wrappers h'
  ∧ ∀ s o fr, stores h !! s = Some o → frames h !! df o = Some fr →
      (∀ key, (IAtIndexer.__getitem__ s key h').1
              = (IAtIndexer.__getitem__ s key h).1)
      ∧ (∀ key, (AtIndexer.__getitem__ s key h').1
                = (AtIndexer.__getitem__ s key h).1).
Proof.
  intros Hmade.
  assert (frames h ⊆ frames h' ∧ stores h ⊆ stores h'
          ∧ wrappers h ⊆ wrappers h') as (Hf & Hs & Hw).
  { destruct Hmade as [(rc & data & index & ->)|[(rc & table & index & ->)
      |[(s & n & ->)|(s & ->)]]].
    - apply init_extends.
    - apply adopt_extends.
    - apply head_extends.
    - apply copy_shallow_extends. }
  split; [done|]. split; [done|]. split; [done|].
  intros s o fr Hso Hfr.
  pose proof (lookup_weaken _ _ _ _ Hso Hs) as Hso'.
  pose proof (lookup_weaken _ _ _ _ Hfr Hf) as Hfr'.
  split; intros key.
  - by rewrite (iat_getitem_run h' s o fr), (iat_getitem_run h s o fr).
  - by rewrite (at_getitem_run h' s o fr), (at_getitem_run h s o fr).
Qed.

Lemma making_stores_keeps_others_witness :
  (IAtIndexer.__getitem__ 0%nat 1
     (DataClassFrame.head 0%nat 1 heap_three_points).2).1
  = (IAtIndexer.__getitem__ 0%nat 1 heap_three_points).1.
Proof.
  destruct (making_stores_keeps_others heap_three_points
              (DataClassFrame.head 0%nat 1 heap_three_points).2)
    as (_ & _ & _ & Hreads).
  - right. right. left. exists 0%nat, 1. reflexivity.
  - destruct (Hreads 0%nat (mkDataClassFrame rc_point 0%nat None 0%nat)
                frame_three_points) as [Hiat _].
    + vm_compute. reflexivity.
    + vm_compute. reflexivity.
    + apply Hiat.
Defined.

(** ** Positions and keys *)



